(** * CRATE (pytorchic-bert-CRATE): a shallow embedding of [crate.py] and [data.py]

    Tensors are modelled as a shape together with an indexing function into
    the real numbers (the usual idealisation of floating point: every entry
    is a number, so the statements on entries are read for runs in which no
    intermediate value overflows, and equalities up to rounding); Python
    exceptions are modelled by an error monad; the places where the source
    depends on Python's argument binding are modelled by an explicit binder
    of actual arguments to formal parameters. *)

From Stdlib Require Import Reals Lra Lia List String Ascii Arith ZArith Bool.
Import ListNotations.

Set Implicit Arguments.

(* ===================================================================== *)
(** ** Python: exceptions and argument binding                            *)
(* ===================================================================== *)

Module Py.

(** The exceptions the modelled code can raise. *)
Inductive exn : Type :=
| TypeError
| AssertionError
| ZeroDivisionError
| ValueError
| AttributeError
| IndexError
| KeyError
| RuntimeError.

Inductive result (A : Type) : Type :=
| Ok (a : A)
| Raise (e : exn).
Arguments Ok {A} a.
Arguments Raise {A} e.

Definition bind {A B : Type} (m : result A) (k : A -> result B) : result B :=
  match m with
  | Ok a => k a
  | Raise e => Raise e
  end.

Definition succeeds {A : Type} (m : result A) : bool :=
  match m with Ok _ => true | Raise _ => false end.

(** A [def f(p1, ..., pn)] whose last [n_defaults] parameters carry a
    default value.  None of the callees bound through it has keyword-only
    parameters or a starred parameter. *)
Record signature : Type := Sig {
  params : list string;
  n_defaults : nat
}.

Definition mem (k : string) (l : list string) : bool :=
  existsb (String.eqb k) l.

Fixpoint zip {V : Type} (names : list string) (vals : list V) : list (string * V) :=
  match names, vals with
  | n :: names', v :: vals' => (n, v) :: zip names' vals'
  | _, _ => []
  end.

Fixpoint lookup {V : Type} (k : string) (env : list (string * V)) : option V :=
  match env with
  | [] => None
  | (k', v) :: env' => if String.eqb k k' then Some v else lookup k env'
  end.

(** Binding of the actual arguments of a call (positional, then keyword)
    to the formal parameters.  Python raises [TypeError] when there are
    more positional arguments than parameters, when a keyword names no
    parameter or one already bound positionally, and when a parameter
    without default is left unbound. *)
Definition bind_args {V : Type} (sg : signature)
           (args : list V) (kwargs : list (string * V))
  : result (list (string * V)) :=
  let ps := params sg in
  let np := List.length ps in
  let na := List.length args in
  if np <? na then Raise TypeError
  else if existsb (fun kv => negb (mem (fst kv) ps)) kwargs then Raise TypeError
  else if existsb (fun kv => mem (fst kv) (firstn na ps)) kwargs then Raise TypeError
  else
    let env := zip ps args ++ kwargs in
    let required := firstn (np - n_defaults sg) ps in
    if forallb (fun p => match lookup p env with Some _ => true | None => false end)
               required
    then Ok env
    else Raise TypeError.

End Py.

Import Py.

Declare Scope py_scope.
Delimit Scope py_scope with py.
Notation "x <- m ;; k" := (Py.bind m (fun x => k))
  (at level 61, m at next level, right associativity) : py_scope.
Notation "'assert!' b ;; k" := (if b then k else Raise AssertionError)
  (at level 61, b at next level, right associativity) : py_scope.

Local Open Scope py_scope.

(* ===================================================================== *)
(** ** Tensors                                                            *)
(* ===================================================================== *)

(** An array is a shape and the entries at each multi-index.  Only the
    entries at indices within the shape are meaningful. *)
Record ndarray (A : Type) : Type := mkT {
  shape : list nat;
  data : list nat -> A
}.

(** Float tensors (idealised as reals), boolean tensors (the dtype of an
    attention mask) and integer tensors (token ids). *)
Definition tensor : Type := ndarray R.
Definition btensor : Type := ndarray bool.
Definition ltensor : Type := ndarray Z.

(** [idx] addresses an entry of a tensor of shape [s]. *)
Definition valid (s idx : list nat) : Prop := Forall2 lt idx s.

Local Open Scope R_scope.

(** [sum_n n f] is f 0 + ... + f (n-1). *)
Fixpoint sum_n (n : nat) (f : nat -> R) : R :=
  match n with
  | O => 0
  | S k => sum_n k f + f k
  end.

(** *** Broadcasting of elementwise operations *)

(** Shapes are aligned at their last dimension; two dimensions are
    compatible when they are equal or one of them is 1.  Both functions
    work on reversed shapes. *)
Fixpoint broadcast_rev (s1 s2 : list nat) : option (list nat) :=
  match s1, s2 with
  | [], s => Some s
  | s, [] => Some s
  | a :: s1', b :: s2' =>
      match broadcast_rev s1' s2' with
      | None => None
      | Some s =>
          if (a =? b)%nat then Some (a :: s)
          else if (a =? 1)%nat then Some (b :: s)
          else if (b =? 1)%nat then Some (a :: s)
          else None
      end
  end.

Definition broadcast_shapes (s1 s2 : list nat) : option (list nat) :=
  option_map (@rev nat) (broadcast_rev (rev s1) (rev s2)).

(** The index into an operand of (reversed) shape [s] for the (reversed)
    index [idx] of the result: leading result dimensions are dropped and a
    dimension of size 1 is read at 0. *)
Fixpoint bidx_rev (s idx : list nat) : list nat :=
  match s, idx with
  | d :: s', i :: idx' => (if (d =? 1)%nat then O else i) :: bidx_rev s' idx'
  | _, _ => []
  end.

Definition bidx (s idx : list nat) : list nat :=
  rev (bidx_rev (rev s) (rev idx)).

(** [a op b] for tensors [a] and [b]. *)
Definition map2 (op : R -> R -> R) (a b : tensor) : result tensor :=
  match broadcast_shapes (shape a) (shape b) with
  | Some s =>
      Ok (mkT s (fun idx => op (data a (bidx (shape a) idx))
                               (data b (bidx (shape b) idx))))
  | None => Raise RuntimeError
  end.

Definition tadd : tensor -> tensor -> result tensor := map2 Rplus.
Definition tsub : tensor -> tensor -> result tensor := map2 Rminus.
Definition tmul : tensor -> tensor -> result tensor := map2 Rmult.

(** Operations with a Python float on one side. *)
Definition tmap {A B : Type} (f : A -> B) (a : ndarray A) : ndarray B :=
  mkT (shape a) (fun idx => f (data a idx)).

Definition scalar_mul (c : R) (a : tensor) : tensor := tmap (fun v => c * v) a.
Definition mul_scalar (a : tensor) (c : R) : tensor := tmap (fun v => v * c) a.
Definition sub_scalar (a : tensor) (c : R) : tensor := tmap (fun v => v - c) a.
Definition scalar_sub (c : R) (a : tensor) : tensor := tmap (fun v => c - v) a.

(** [F.relu] *)
Definition relu (a : tensor) : tensor := tmap (Rmax 0) a.

(** [Tensor.t()]: transposition of a tensor of at most two dimensions. *)
Definition t (W : tensor) : result tensor :=
  match shape W with
  | [] | [_] => Ok W
  | [n; m] => Ok (mkT [m; n] (fun idx => data W (rev idx)))
  | _ => Raise RuntimeError
  end.

(** [F.linear(x, W, bias=None)] for a weight of shape (out, in): the last
    dimension of [x] is contracted with the second dimension of [W],
    y[..., o] = sum_l x[..., l] * W[o, l]. *)
Definition linear (x W : tensor) : result tensor :=
  match shape W, rev (shape x) with
  | [o; k], k' :: rbatch =>
      if (k =? k')%nat
      then Ok (mkT (rev rbatch ++ [o])
                   (fun idx => sum_n k (fun l =>
                      data x (removelast idx ++ [l]) * data W [last idx O; l])))
      else Raise RuntimeError
  | _, _ => Raise RuntimeError
  end.

(* ===================================================================== *)
(** ** FeedForward                                                        *)
(* ===================================================================== *)

Record FeedForward : Type := mkFeedForward {
  ff_weight : tensor;
  ff_step_size : R;
  ff_lambd : R
}.

(** [FeedForward.__init__(dim, hidden_dim, dropout, step_size)].  [init]
    stands for the entries drawn by [kaiming_uniform_]; later training
    replaces them and keeps the shape. *)
Definition FeedForward_init (dim hidden_dim : nat) (dropout : R) (step_size : R)
           (init : list nat -> R) : FeedForward :=
  {| ff_weight := mkT [dim; dim] init;
     ff_step_size := step_size;
     ff_lambd := 1 / 10 |}.

(** [FeedForward.forward(x)] *)
Definition FeedForward_forward (self : FeedForward) (x : tensor) : result tensor :=
  x1 <- linear x (ff_weight self) ;;
  wt <- t (ff_weight self) ;;
  grad_1 <- linear x1 wt ;;
  wt' <- t (ff_weight self) ;;
  grad_2 <- linear x wt' ;;
  d <- tsub grad_2 grad_1 ;;
  let grad_update :=
    sub_scalar (scalar_mul (ff_step_size self) d)
               (ff_step_size self * ff_lambd self) in
  s <- tadd x grad_update ;;
  Ok (relu s).

(* ===================================================================== *)
(** ** Randomness: the stream of dropout masks                            *)
(* ===================================================================== *)

(** Each call of an active dropout layer draws one keep-mask.  The state of
    the generator is the stream of masks still to be drawn; a forward pass
    threads it and may raise. *)
Definition rng : Type := nat -> list nat -> bool.

Definition M (A : Type) : Type := rng -> result (A * rng).

Definition ret {A : Type} (a : A) : M A := fun g => Ok (a, g).

Definition raise {A : Type} (e : exn) : M A := fun _ => Raise e.

Definition lift {A : Type} (m : result A) : M A :=
  fun g => match m with Ok a => Ok (a, g) | Raise e => Raise e end.

Definition mbind {A B : Type} (m : M A) (k : A -> M B) : M B :=
  fun g => match m g with
           | Ok (a, g') => k a g'
           | Raise e => Raise e
           end.

Definition draw : M (list nat -> bool) :=
  fun g => Ok (g O, fun n => g (S n)).

Notation "x <~ m ;; k" := (mbind m (fun x => k))
  (at level 61, m at next level, right associativity) : py_scope.

(* ===================================================================== *)
(** ** Library layers: Dropout, LayerNorm, Linear, Softmax                *)
(* ===================================================================== *)

(** [nn.Dropout(p)]; [drop_training] is the module's [training] flag. *)
Record Dropout : Type := mkDropout {
  drop_p : R;
  drop_training : bool
}.

(** The constructor rejects a probability outside [0, 1]; a new module is
    in training mode. *)
Definition Dropout_init (p : R) : result Dropout :=
  if Rlt_dec p 0 then Raise ValueError
  else if Rlt_dec 1 p then Raise ValueError
  else Ok {| drop_p := p; drop_training := true |}.

(** In training mode with p > 0 every entry is dropped or scaled by
    1 / (1 - p); otherwise the layer is the identity. *)
Definition Dropout_forward (self : Dropout) (x : tensor) : M tensor :=
  if drop_training self then
    if Rlt_dec 0 (drop_p self) then
      keep <~ draw ;;
      ret (mkT (shape x)
               (fun idx => if keep idx then data x idx / (1 - drop_p self) else 0))
    else ret x
  else ret x.

(** [nn.LayerNorm(dim)]: affine parameters of shape (dim,). *)
Record LayerNorm : Type := mkLayerNorm {
  ln_dim : nat;
  ln_weight : nat -> R;
  ln_bias : nat -> R;
  ln_eps : R
}.

Definition LayerNorm_init (dim : nat) : LayerNorm :=
  {| ln_dim := dim;
     ln_weight := fun _ => 1;
     ln_bias := fun _ => 0;
     ln_eps := 1 / 100000 |}.

(** Normalisation over the last dimension, with the biased variance. *)
Definition LayerNorm_forward (self : LayerNorm) (x : tensor) : result tensor :=
  match rev (shape x) with
  | d :: _ =>
      if (d =? ln_dim self)%nat then
        Ok (mkT (shape x) (fun idx =>
              let row := fun l => data x (removelast idx ++ [l]) in
              let mean := sum_n d row / INR d in
              let var := sum_n d (fun l => (row l - mean) * (row l - mean)) / INR d in
              (data x idx - mean) / sqrt (var + ln_eps self)
                * ln_weight self (last idx O) + ln_bias self (last idx O)))
      else Raise RuntimeError
  | [] => Raise RuntimeError
  end.

(** [nn.Linear(in, out, bias)]: weight of shape (out, in), bias of shape
    (out,) when present. *)
Record Linear : Type := mkLinear {
  lin_weight : tensor;
  lin_bias : option tensor
}.

Definition Linear_init (in_features out_features : nat) (bias : bool)
           (init_w init_b : list nat -> R) : Linear :=
  {| lin_weight := mkT [out_features; in_features] init_w;
     lin_bias := if bias then Some (mkT [out_features] init_b) else None |}.

Definition Linear_forward (self : Linear) (x : tensor) : result tensor :=
  y <- linear x (lin_weight self) ;;
  match lin_bias self with
  | Some b => tadd y b
  | None => Ok y
  end.

(** [nn.Softmax(dim = -1)] *)
Definition softmax (a : tensor) : result tensor :=
  match rev (shape a) with
  | n :: _ =>
      Ok (mkT (shape a) (fun idx =>
            exp (data a idx)
            / sum_n n (fun j => exp (data a (removelast idx ++ [j])))))
  | [] => Ok (mkT [] (fun _ => 1))
  end.

(** [a.transpose(-1, -2)] *)
Definition transpose_last2 (a : tensor) : result tensor :=
  match rev (shape a) with
  | m :: n :: rb =>
      Ok (mkT (rev rb ++ [m; n])
              (fun idx => match rev idx with
                          | j :: i :: ridx => data a (rev ridx ++ [j; i])
                          | _ => 0
                          end))
  | _ => Raise IndexError
  end.

(** [torch.matmul(a, b)] for operands of at least two dimensions: a matrix
    product over the last two dimensions, the leading ones broadcast.  (The
    source calls it on operands of four dimensions; the vector cases of
    torch.matmul are not modelled.) *)
Definition matmul (a b : tensor) : result tensor :=
  match rev (shape a), rev (shape b) with
  | k :: n :: ra, m :: k' :: rb =>
      if (k =? k')%nat then
        match broadcast_rev ra rb with
        | Some rs =>
            Ok (mkT (rev rs ++ [n; m])
                    (fun idx =>
                       match rev idx with
                       | j :: i :: ridx =>
                           sum_n k (fun l =>
                             data a (rev (bidx_rev ra ridx) ++ [i; l])
                             * data b (rev (bidx_rev rb ridx) ++ [l; j]))
                       | _ => 0
                       end))
        | None => Raise RuntimeError
        end
      else Raise RuntimeError
  | _, _ => Raise RuntimeError
  end.

(** einops [rearrange(y, 'b n (h d) -> b h n d', h = h)]: the number of
    dimensions is checked first, then the length of the last axis is taken
    modulo [h] (ZeroDivisionError for [h = 0]; EinopsError, a RuntimeError,
    when the remainder is not zero). *)
Definition rearrange_split_heads (h : nat) (y : tensor) : result tensor :=
  match shape y with
  | [b; n; c] =>
      if (h =? 0)%nat then Raise ZeroDivisionError
      else if (c mod h =? 0)%nat then
        let d := (c / h)%nat in
        Ok (mkT [b; h; n; d]
                (fun idx => match idx with
                            | [ib; ih; i; id] => data y [ib; i; (ih * d + id)%nat]
                            | _ => 0
                            end))
      else Raise RuntimeError
  | _ => Raise RuntimeError
  end.

(** einops [rearrange(a, 'b h n d -> b n (h d)')] *)
Definition rearrange_merge_heads (a : tensor) : result tensor :=
  match shape a with
  | [b; h; n; d] =>
      Ok (mkT [b; n; (h * d)%nat]
              (fun idx => match idx with
                          | [ib; i; c] => data a [ib; (c / d)%nat; i; (c mod d)%nat]
                          | _ => 0
                          end))
  | _ => Raise RuntimeError
  end.

(** [m[:, None, None, :]] *)
Definition index_mask {A : Type} (dflt : A) (m : ndarray A) : result (ndarray A) :=
  match shape m with
  | b :: n :: rest =>
      Ok (mkT (b :: 1%nat :: 1%nat :: n :: rest)
              (fun idx => match idx with
                          | ib :: _ :: _ :: tl => data m (ib :: tl)
                          | _ => dflt
                          end))
  | _ => Raise IndexError
  end.

(** [m.float()] on a boolean tensor *)
Definition float (m : btensor) : tensor :=
  tmap (fun v : bool => if v then 1 else 0) m.

(* ===================================================================== *)
(** ** Values crossing a call boundary                                    *)
(* ===================================================================== *)

(** The configuration object read by [Transformer] and [Embeddings]; its
    class is not part of the source, only the attributes read from it. *)
Record Config : Type := mkConfig {
  vocab_size : nat;
  cfg_dim : nat;
  n_layers : nat;
  n_heads : nat;
  p_drop_hidden : R;
  p_drop_attn : R;
  max_len : nat;
  n_segments : nat
}.

Inductive pyval : Type :=
| VNone
| VInt (n : nat)
| VFloat (r : R)
| VTensor (x : tensor)
| VBoolTensor (m : btensor)
| VLongTensor (ids : ltensor)
| VCfg (c : Config).

(* ===================================================================== *)
(** ** Attention                                                          *)
(* ===================================================================== *)

Record Attention : Type := mkAttention {
  att_heads : nat;
  att_scale : R;
  att_dropout : Dropout;
  att_qkv : Linear;
  (** [None] stands for [nn.Identity()] *)
  att_to_out : option (Linear * Dropout)
}.

(** The entries drawn for the parameters of one attention block. *)
Record AttentionInit : Type := mkAttentionInit {
  init_qkv : list nat -> R;
  init_out_w : list nat -> R;
  init_out_b : list nat -> R
}.

(** [Attention.__init__(dim, heads, dim_head, dropout)].  [dim_head ** -0.5]
    raises for a zero [dim_head]. *)
Definition Attention_init (dim heads dim_head : nat) (dropout : R)
           (w : AttentionInit) : result Attention :=
  let inner_dim := (dim_head * heads)%nat in
  let project_out := negb ((heads =? 1)%nat && (dim_head =? dim)%nat) in
  scale <- (if (dim_head =? 0)%nat then Raise ZeroDivisionError
            else Ok (/ sqrt (INR dim_head))) ;;
  drop <- Dropout_init dropout ;;
  let qkv := Linear_init dim inner_dim false (init_qkv w) (fun _ => 0) in
  to_out <- (if project_out
             then d <- Dropout_init dropout ;;
                  Ok (Some (Linear_init inner_dim dim true (init_out_w w) (init_out_b w), d))
             else Ok None) ;;
  Ok {| att_heads := heads;
        att_scale := scale;
        att_dropout := drop;
        att_qkv := qkv;
        att_to_out := to_out |}.

(** [w = rearrange(self.qkv(x), 'b n (h d) -> b h n d', h = self.heads)] *)
Definition Attention_w (self : Attention) (x : tensor) : result tensor :=
  y <- Linear_forward (att_qkv self) x ;;
  rearrange_split_heads (att_heads self) y.

(** [dots = torch.matmul(w, w.transpose(-1, -2)) * self.scale] *)
Definition Attention_dots (self : Attention) (w : tensor) : result tensor :=
  wt <- transpose_last2 w ;;
  d <- matmul w wt ;;
  Ok (mul_scalar d (att_scale self)).

(** [if mask is not None: attn = attn * (1.0 - mask[:, None, None, :].float())] *)
Definition apply_mask (attn : tensor) (mask : pyval) : result tensor :=
  match mask with
  | VNone => Ok attn
  | VBoolTensor m =>
      m' <- index_mask false m ;;
      tmul attn (scalar_sub 1 (float m'))
  | VTensor m =>
      m' <- index_mask 0 m ;;
      tmul attn (scalar_sub 1 m')
  | VLongTensor m =>
      m' <- index_mask 0%Z m ;;
      tmul attn (scalar_sub 1 (tmap IZR m'))
  | VInt _ | VFloat _ | VCfg _ => Raise TypeError
  end.

(** The first part of [Attention.forward]: the projected input [w] and the
    attention weights that multiply it. *)
Definition Attention_attn (self : Attention) (x : tensor) (mask : pyval)
  : M (tensor * tensor) :=
  w <~ lift (Attention_w self x) ;;
  dots <~ lift (Attention_dots self w) ;;
  attn <~ lift (softmax dots) ;;
  attn <~ Dropout_forward (att_dropout self) attn ;;
  attn <~ lift (apply_mask attn mask) ;;
  ret (attn, w).

(** [Attention.forward(x, mask)] *)
Definition Attention_forward (self : Attention) (x : tensor) (mask : pyval)
  : M tensor :=
  aw <~ Attention_attn self x mask ;;
  out <~ lift (matmul (fst aw) (snd aw)) ;;
  out <~ lift (rearrange_merge_heads out) ;;
  match att_to_out self with
  | Some (l, d) =>
      out <~ lift (Linear_forward l out) ;;
      Dropout_forward d out
  | None => ret out
  end.

(* ===================================================================== *)
(** ** PreNorm                                                            *)
(* ===================================================================== *)

Local Open Scope string_scope.

(** The blocks wrapped by [PreNorm] in this repository. *)
Inductive block : Type :=
| BAttention (a : Attention)
| BFeedForward (f : FeedForward).

(** [def forward(self, x, mask)] and [def forward(self, x)] *)
Definition Attention_forward_sig : signature := Sig ["x"; "mask"] 0.
Definition FeedForward_forward_sig : signature := Sig ["x"] 0.

Definition as_tensor (v : option pyval) : result tensor :=
  match v with
  | Some (VTensor x) => Ok x
  | _ => Raise TypeError
  end.

(** The call of the wrapped block on a list of positional arguments. *)
Definition call_block (fn : block) (args : list pyval) : M tensor :=
  match fn with
  | BAttention a =>
      env <~ lift (bind_args Attention_forward_sig args []) ;;
      x <~ lift (as_tensor (lookup "x" env)) ;;
      match lookup "mask" env with
      | Some mask => Attention_forward a x mask
      | None => raise TypeError
      end
  | BFeedForward f =>
      env <~ lift (bind_args FeedForward_forward_sig args []) ;;
      x <~ lift (as_tensor (lookup "x" env)) ;;
      lift (FeedForward_forward f x)
  end.

Record PreNorm : Type := mkPreNorm {
  pn_norm : LayerNorm;
  pn_fn : block
}.

Definition PreNorm_init (dim : nat) (fn : block) : PreNorm :=
  {| pn_norm := LayerNorm_init dim; pn_fn := fn |}.

(** [PreNorm.forward(x, mask=None)]; no caller passes further keywords. *)
Definition PreNorm_forward (self : PreNorm) (x : tensor) (mask : pyval) : M tensor :=
  match mask with
  | VNone =>
      nx <~ lift (LayerNorm_forward (pn_norm self) x) ;;
      call_block (pn_fn self) [VTensor nx]
  | _ =>
      nx <~ lift (LayerNorm_forward (pn_norm self) x) ;;
      call_block (pn_fn self) [VTensor nx; mask]
  end.

(* ===================================================================== *)
(** ** Embeddings                                                         *)
(* ===================================================================== *)

(** Does [p] hold at every index of shape [s]? *)
Fixpoint all_idx (s : list nat) (p : list nat -> bool) : bool :=
  match s with
  | [] => p []
  | d :: s' => forallb (fun i => all_idx s' (fun idx => p (i :: idx))) (seq 0 d)
  end.

(** [nn.Embedding(num, dim)(ids)]: a table lookup, which raises on an id
    outside the table and on indices that are not integers. *)
Definition embedding (W : tensor) (v : pyval) : result tensor :=
  match v with
  | VLongTensor ids =>
      match shape W with
      | [num; dim] =>
          if all_idx (shape ids)
                     (fun idx => (0 <=? data ids idx)%Z
                                 && (data ids idx <? Z.of_nat num)%Z)
          then Ok (mkT (shape ids ++ [dim])
                       (fun idx => data W [Z.to_nat (data ids (removelast idx));
                                           last idx O]))
          else Raise IndexError
      | _ => Raise RuntimeError
      end
  | VTensor _ | VBoolTensor _ => Raise RuntimeError
  | VNone | VInt _ | VFloat _ | VCfg _ => Raise TypeError
  end.

Definition shape_of (v : pyval) : result (list nat) :=
  match v with
  | VTensor x => Ok (shape x)
  | VBoolTensor m => Ok (shape m)
  | VLongTensor ids => Ok (shape ids)
  | VNone | VInt _ | VFloat _ | VCfg _ => Raise AttributeError
  end.

(** [x.size(1)] *)
Definition size1 (v : pyval) : result nat :=
  s <- shape_of v ;;
  match s with
  | _ :: n :: _ => Ok n
  | _ => Raise IndexError
  end.

Definition list_eqb (a b : list nat) : bool :=
  if list_eq_dec Nat.eq_dec a b then true else false.

(** [a.expand_as(x)] for [x] of shape [target] *)
Definition expand_as {A : Type} (a : ndarray A) (target : list nat)
  : result (ndarray A) :=
  match broadcast_shapes (shape a) target with
  | Some s =>
      if list_eqb s target
      then Ok (mkT target (fun idx => data a (bidx (shape a) idx)))
      else Raise RuntimeError
  | None => Raise RuntimeError
  end.

Record Embeddings : Type := mkEmbeddings {
  tok_embed : tensor;
  pos_embed : tensor;
  seg_embed : tensor;
  emb_norm : LayerNorm;
  emb_drop : Dropout
}.

Record EmbeddingsInit : Type := mkEmbeddingsInit {
  init_tok : list nat -> R;
  init_pos : list nat -> R;
  init_seg : list nat -> R
}.

(** [Embeddings.__init__(cfg)] *)
Definition Embeddings_init (cfg : Config) (w : EmbeddingsInit) : result Embeddings :=
  drop <- Dropout_init (p_drop_hidden cfg) ;;
  Ok {| tok_embed := mkT [vocab_size cfg; cfg_dim cfg] (init_tok w);
        pos_embed := mkT [max_len cfg; cfg_dim cfg] (init_pos w);
        seg_embed := mkT [n_segments cfg; cfg_dim cfg] (init_seg w);
        emb_norm := LayerNorm_init (cfg_dim cfg);
        emb_drop := drop |}.

(** [Embeddings.forward(x, seg)] *)
Definition Embeddings_forward (self : Embeddings) (x seg : pyval) : M tensor :=
  seq_len <~ lift (size1 x) ;;
  xs <~ lift (shape_of x) ;;
  let pos : ltensor :=
    mkT [1%nat; seq_len]
        (fun idx => match idx with
                    | [_; i] => Z.of_nat i
                    | _ => 0%Z
                    end) in
  pos <~ lift (expand_as pos xs) ;;
  te <~ lift (embedding (tok_embed self) x) ;;
  pe <~ lift (embedding (pos_embed self) (VLongTensor pos)) ;;
  e <~ lift (tadd te pe) ;;
  se <~ lift (embedding (seg_embed self) seg) ;;
  e <~ lift (tadd e se) ;;
  ne <~ lift (LayerNorm_forward (emb_norm self) e) ;;
  Dropout_forward (emb_drop self) ne.

(* ===================================================================== *)
(** ** Transformer                                                        *)
(* ===================================================================== *)

Record Transformer : Type := mkTransformer {
  tr_embed : Embeddings;
  (** each layer is the pair (attn, ff) *)
  tr_layers : list (PreNorm * PreNorm)
}.

Record TransformerInit : Type := mkTransformerInit {
  init_embed : EmbeddingsInit;
  init_attn : nat -> AttentionInit;
  init_ff : nat -> list nat -> R
}.

(** [def __init__(self, cfg, ista=0.1)] *)
Definition Transformer_init_sig : signature := Sig ["cfg"; "ista"] 1.

(** [a // b] on non-negative integers *)
Definition floordiv (a b : nat) : result nat :=
  if (b =? 0)%nat then Raise ZeroDivisionError else Ok (a / b)%nat.

(** [a % b] on non-negative integers *)
Definition pymod (a b : nat) : result nat :=
  if (b =? 0)%nat then Raise ZeroDivisionError else Ok (a mod b)%nat.

(** One pass of the constructor's loop: the layer appended at position [k]. *)
Definition Transformer_layer (dim heads dim_head : nat) (dropout ista : R)
           (w : TransformerInit) (k : nat) : result (PreNorm * PreNorm) :=
  a <- Attention_init dim heads dim_head dropout (init_attn w k) ;;
  Ok (PreNorm_init dim (BAttention a),
      PreNorm_init dim (BFeedForward
        (FeedForward_init dim dim dropout ista (init_ff w k)))).

(** The call of the constructor on positional and keyword arguments.  A
    step size that is not a number is stored as it is by the source and
    rejected here. *)
Definition Transformer_init (args : list pyval) (kwargs : list (string * pyval))
           (w : TransformerInit) : result Transformer :=
  env <- bind_args Transformer_init_sig args kwargs ;;
  cfg <- match lookup "cfg" env with
         | Some (VCfg c) => Ok c
         | _ => Raise AttributeError
         end ;;
  ista <- match lookup "ista" env with
          | None => Ok (1 / 10)%R
          | Some (VFloat r) => Ok r
          | Some (VInt n) => Ok (INR n)
          | Some _ => Raise TypeError
          end ;;
  let dim := cfg_dim cfg in
  let depth := n_layers cfg in
  let heads := n_heads cfg in
  dim_head <- floordiv (cfg_dim cfg) (n_heads cfg) ;;
  let dropout := p_drop_attn cfg in
  embed <- Embeddings_init cfg (init_embed w) ;;
  layers <- fold_left
              (fun (acc : result (list (PreNorm * PreNorm))) (k : nat) =>
                 ls <- acc ;;
                 l <- Transformer_layer dim heads dim_head dropout ista w k ;;
                 Ok (ls ++ [l])%list)
              (seq 0 depth) (Ok []) ;;
  Ok {| tr_embed := embed; tr_layers := layers |}.

(** The body of the loop of [Transformer.forward]. *)
Definition Transformer_step (mask : pyval) (layer : PreNorm * PreNorm)
           (x : tensor) : M tensor :=
  let '(attn, ff) := layer in
  a <~ PreNorm_forward attn x mask ;;
  grad_x <~ lift (tadd a x) ;;
  PreNorm_forward ff grad_x VNone.

(** [Transformer.forward(x, seg, mask)] *)
Definition Transformer_forward (self : Transformer) (x seg mask : pyval) : M tensor :=
  x0 <~ Embeddings_forward (tr_embed self) x seg ;;
  fold_left (fun (acc : M tensor) layer =>
               x <~ acc ;; Transformer_step mask layer x)
            (tr_layers self) (ret x0).

(** [def forward(self, x, seg, mask)] *)
Definition Transformer_forward_sig : signature := Sig ["x"; "seg"; "mask"] 0.

(** [self.transformer(...)]: the call of a transformer object. *)
Definition Transformer_call (self : Transformer) (args : list pyval) : M tensor :=
  env <~ lift (bind_args Transformer_forward_sig args []) ;;
  match lookup "x" env, lookup "seg" env, lookup "mask" env with
  | Some x, Some seg, Some mask => Transformer_forward self x seg mask
  | _, _, _ => raise TypeError
  end.

(* ===================================================================== *)
(** ** CRATE                                                              *)
(* ===================================================================== *)

(** An image or patch size: an integer or a pair. *)
Inductive size_arg : Type :=
| SInt (n : nat)
| STuple (h w : nat).

(** [pair(t)] *)
Definition pair (s : size_arg) : nat * nat :=
  match s with
  | STuple h w => (h, w)
  | SInt n => (n, n)
  end.

(** The keyword arguments of [CRATE.__init__]. *)
Record CRATE_args : Type := mkCRATE_args {
  image_size : size_arg;
  patch_size : size_arg;
  num_classes : nat;
  dim : nat;
  depth : nat;
  heads : nat;
  pool : string;
  channels : nat;
  dim_head : nat;
  dropout : R;
  emb_dropout : R;
  ista : R
}.

Record CRATE : Type := mkCRATE {
  c_patch_height : nat;
  c_patch_width : nat;
  c_patch_norm : LayerNorm;
  c_patch_linear : Linear;
  c_embed_norm : LayerNorm;
  c_pos_embedding : tensor;
  c_cls_token : tensor;
  c_dropout : Dropout;
  c_transformer : Transformer;
  c_pool : string;
  c_head_norm : LayerNorm;
  c_head_linear : Linear
}.

Record CRATEInit : Type := mkCRATEInit {
  init_patch_w : list nat -> R;
  init_patch_b : list nat -> R;
  init_pos_embedding : list nat -> R;
  init_cls_token : list nat -> R;
  init_transformer : TransformerInit;
  init_head_w : list nat -> R;
  init_head_b : list nat -> R
}.

(** [CRATE.__init__] *)
Definition CRATE_init (a : CRATE_args) (w : CRATEInit) : result CRATE :=
  let '(image_height, image_width) := pair (image_size a) in
  let '(patch_height, patch_width) := pair (patch_size a) in
  rh <- pymod image_height patch_height ;;
  divisible <- (if (rh =? 0)%nat
                then rw <- pymod image_width patch_width ;; Ok (rw =? 0)%nat
                else Ok false) ;;
  assert! divisible ;;
  qh <- floordiv image_height patch_height ;;
  qw <- floordiv image_width patch_width ;;
  let num_patches := (qh * qw)%nat in
  let patch_dim := (channels a * patch_height * patch_width)%nat in
  assert! (String.eqb (pool a) "cls" || String.eqb (pool a) "mean") ;;
  let patch_norm := LayerNorm_init patch_dim in
  let patch_linear :=
    Linear_init patch_dim (dim a) true (init_patch_w w) (init_patch_b w) in
  let embed_norm := LayerNorm_init (dim a) in
  let pos_embedding :=
    mkT [1%nat; (num_patches + 1)%nat; dim a] (init_pos_embedding w) in
  let cls_token := mkT [1%nat; 1%nat; dim a] (init_cls_token w) in
  drop <- Dropout_init (emb_dropout a) ;;
  transformer <- Transformer_init
                   [VInt (dim a); VInt (depth a); VInt (heads a);
                    VInt (dim_head a); VFloat (dropout a)]
                   [("ista", VFloat (ista a))]
                   (init_transformer w) ;;
  Ok {| c_patch_height := patch_height;
        c_patch_width := patch_width;
        c_patch_norm := patch_norm;
        c_patch_linear := patch_linear;
        c_embed_norm := embed_norm;
        c_pos_embedding := pos_embedding;
        c_cls_token := cls_token;
        c_dropout := drop;
        c_transformer := transformer;
        c_pool := pool a;
        c_head_norm := LayerNorm_init (dim a);
        c_head_linear :=
          Linear_init (dim a) (num_classes a) true (init_head_w w) (init_head_b w) |}.

(** einops layer [Rearrange('b c (h p1) (w p2) -> b (h w) (p1 p2 c)')]:
    the layer looks its recipe up by the number of dimensions of the input
    (KeyError when that is not four), then goes through the axes in order,
    taking the height modulo [p1] and the width modulo [p2]
    (ZeroDivisionError for a zero patch size; EinopsError, a RuntimeError,
    when the remainder is not zero). *)
Definition rearrange_patches (p1 p2 : nat) (img : tensor) : result tensor :=
  match shape img with
  | [b; c; hh; ww] =>
      if (p1 =? 0)%nat then Raise ZeroDivisionError
      else if negb (hh mod p1 =? 0)%nat then Raise RuntimeError
      else if (p2 =? 0)%nat then Raise ZeroDivisionError
      else if negb (ww mod p2 =? 0)%nat then Raise RuntimeError
      else
        let h := (hh / p1)%nat in
        let w := (ww / p2)%nat in
        Ok (mkT [b; (h * w)%nat; (p1 * p2 * c)%nat]
                (fun idx =>
                   match idx with
                   | [ib; n; f] =>
                       data img [ib; (f mod c)%nat;
                                 ((n / w) * p1 + f / c / p2)%nat;
                                 ((n mod w) * p2 + (f / c) mod p2)%nat]
                   | _ => 0%R
                   end))
  | _ => Raise KeyError
  end.

(** einops [repeat(cls, '1 1 d -> b 1 d', b = b)] *)
Definition repeat_cls (b : nat) (cls : tensor) : result tensor :=
  match shape cls with
  | [1%nat; 1%nat; d] =>
      Ok (mkT [b; 1%nat; d]
              (fun idx => match idx with
                          | [_; _; j] => data cls [O; O; j]
                          | _ => 0%R
                          end))
  | _ => Raise RuntimeError
  end.

(** [torch.cat((a, b), dim=1)] for tensors of three dimensions *)
Definition cat1 (a b : tensor) : result tensor :=
  match shape a, shape b with
  | [b1; n1; d1], [b2; n2; d2] =>
      if ((b1 =? b2) && (d1 =? d2))%nat then
        Ok (mkT [b1; (n1 + n2)%nat; d1]
                (fun idx => match idx with
                            | [ib; i; j] =>
                                if (i <? n1)%nat then data a [ib; i; j]
                                else data b [ib; (i - n1)%nat; j]
                            | _ => 0%R
                            end))
      else Raise RuntimeError
  | _, _ => Raise RuntimeError
  end.

(** [a[:, :k]] *)
Definition slice1 (k : nat) (a : tensor) : result tensor :=
  match shape a with
  | b :: n :: rest => Ok (mkT (b :: Nat.min k n :: rest) (data a))
  | _ => Raise IndexError
  end.

(** [x += y]: the sum must have the shape of [x]. *)
Definition iadd (x y : tensor) : result tensor :=
  s <- tadd x y ;;
  if list_eqb (shape s) (shape x) then Ok s else Raise RuntimeError.

(** [x.mean(dim = 1)] for a tensor of three dimensions *)
Definition mean1 (x : tensor) : result tensor :=
  match shape x with
  | [b; n; d] =>
      Ok (mkT [b; d]
              (fun idx => match idx with
                          | [ib; j] => (sum_n n (fun i => data x [ib; i; j]) / INR n)%R
                          | _ => 0%R
                          end))
  | _ => Raise IndexError
  end.

(** [x[:, 0]] for a tensor of three dimensions *)
Definition select_first (x : tensor) : result tensor :=
  match shape x with
  | [b; n; d] =>
      if (n =? 0)%nat then Raise IndexError
      else Ok (mkT [b; d]
                   (fun idx => match idx with
                               | [ib; j] => data x [ib; O; j]
                               | _ => 0%R
                               end))
  | _ => Raise IndexError
  end.

(** [CRATE.forward(img)] *)
Definition CRATE_forward (self : CRATE) (img : tensor) : M tensor :=
  x <~ lift (rearrange_patches (c_patch_height self) (c_patch_width self) img) ;;
  x <~ lift (LayerNorm_forward (c_patch_norm self) x) ;;
  x <~ lift (Linear_forward (c_patch_linear self) x) ;;
  x <~ lift (LayerNorm_forward (c_embed_norm self) x) ;;
  match shape x with
  | [b; n; _] =>
      cls_tokens <~ lift (repeat_cls b (c_cls_token self)) ;;
      x <~ lift (cat1 cls_tokens x) ;;
      pe <~ lift (slice1 (n + 1) (c_pos_embedding self)) ;;
      x <~ lift (iadd x pe) ;;
      x <~ Dropout_forward (c_dropout self) x ;;
      x <~ Transformer_call (c_transformer self) [VTensor x] ;;
      x <~ lift (if String.eqb (c_pool self) "mean" then mean1 x else select_first x) ;;
      x <~ lift (LayerNorm_forward (c_head_norm self) x) ;;
      lift (Linear_forward (c_head_linear self) x)
  | _ => raise ValueError
  end.

(** [CRATE_tiny(num_classes)]; the arguments left out take the defaults of
    [CRATE.__init__]. *)
Definition CRATE_tiny (num_classes : nat) : CRATEInit -> result CRATE :=
  CRATE_init {| image_size := SInt 224;
                patch_size := SInt 16;
                num_classes := num_classes;
                dim := 384;
                depth := 12;
                heads := 6;
                pool := "cls";
                channels := 3;
                dim_head := 384 / 6;
                dropout := 0;
                emb_dropout := 0;
                ista := 1 / 10 |}.

(** The call [CRATE_tiny()(img)]. *)
Definition CRATE_tiny_forward (num_classes : nat) (w : CRATEInit) (img : tensor)
  : M tensor :=
  model <~ lift (CRATE_tiny num_classes w) ;;
  CRATE_forward model img.

(* ===================================================================== *)
(** ** The corpus script ([data.py])                                      *)
(* ===================================================================== *)

Module Corpus.

(** The pattern of [re.findall]. *)
Definition pattern : string := " = ".

(** [len(re.findall(pattern, s))]: the matches are found from left to
    right and the search resumes after the end of each match.  [skip]
    counts the characters of the last match still to be passed. *)
Fixpoint findall_count (skip : nat) (s : string) : nat :=
  match s with
  | EmptyString => O
  | String _ s' =>
      match skip with
      | S k => findall_count k s'
      | O => if String.prefix pattern s
             then S (findall_count (String.length pattern - 1) s')
             else findall_count O s'
      end
  end.

Definition newline : string := String (ascii_of_nat 10) EmptyString.

(** The file is the text written so far; [open(..., "w")] starts it empty. *)
Definition file : Type := string.
Definition open : file := EmptyString.
Definition write (f : file) (s : string) : file := f ++ s.

(** The loop over [wiki["text"]]. *)
Definition run (text : list string) : file :=
  fold_left (fun (f : file) (i : string) =>
               let i := if (1 <? findall_count O i)%nat then newline else i in
               write f i)
            text open.

End Corpus.

(* ===================================================================== *)
(** ** Specification-level definitions                                    *)
(* ===================================================================== *)

Local Open Scope R_scope.

(** *** The feed-forward step as the specification words it *)

(** [x . A] over the last axis of [x], for a square matrix [A] of size [n]
    given by its entries. *)
Definition rowmat (n : nat) (x : list nat -> R) (A : nat -> nat -> R)
           (idx : list nat) : R :=
  sum_n n (fun k => x (removelast idx ++ [k])%list * A k (last idx O)).

Definition transposed (A : nat -> nat -> R) : nat -> nat -> R :=
  fun i j => A j i.

Definition entries (W : tensor) : nat -> nat -> R :=
  fun i j => data W [i; j].

(** x1 = x . Dt, grad_1 = x1 . D, grad_2 = x . D,
    update = s (grad_2 - grad_1) - s lambda, output = ReLU(x + update). *)
Definition spec_feed_forward (n : nat) (s lambda : R) (D : nat -> nat -> R)
           (x : list nat -> R) (idx : list nat) : R :=
  let x1 := rowmat n x (transposed D) in
  let grad_1 := rowmat n x1 D in
  let grad_2 := rowmat n x D in
  let update := fun i => s * (grad_2 i - grad_1 i) - s * lambda in
  Rmax 0 (x idx + update idx).

(** *** Attention blocks *)

(** Shape invariant of an attention block over inputs of width [dim], with
    [h] heads of width [d]; the constructor establishes it. *)
Definition Attention_wf (dim h d : nat) (self : Attention) : Prop :=
  att_heads self = h /\ h <> O
  /\ shape (lin_weight (att_qkv self)) = [(d * h)%nat; dim]
  /\ lin_bias (att_qkv self) = None.

(** A dropout layer that acts as the identity: evaluation mode, or a zero
    probability. *)
Definition dropout_inactive (self : Dropout) : Prop :=
  drop_training self = false \/ drop_p self <= 0.

(** *** The layers of a transformer stack *)

(** The four modules of one layer as the constructor builds it. *)
Record layer_parts : Type := mkLayerParts {
  lp_norm1 : LayerNorm;
  lp_attn : Attention;
  lp_norm2 : LayerNorm;
  lp_ff : FeedForward
}.

Definition wrap (l : layer_parts) : PreNorm * PreNorm :=
  (mkPreNorm (lp_norm1 l) (BAttention (lp_attn l)),
   mkPreNorm (lp_norm2 l) (BFeedForward (lp_ff l))).

(** The update of one layer as the specification words it: a residual
    around the pre-normalised attention, then the feed-forward block on the
    normalised sum, whose output is the new representation. *)
Definition spec_layer_update (mask : pyval) (l : layer_parts) (x : tensor) : M tensor :=
  a <~ PreNorm_forward (mkPreNorm (lp_norm1 l) (BAttention (lp_attn l))) x mask ;;
  grad_x <~ lift (tadd a x) ;;
  ngx <~ lift (LayerNorm_forward (lp_norm2 l) grad_x) ;;
  lift (FeedForward_forward (lp_ff l) ngx).

Fixpoint spec_layers (mask : pyval) (ls : list layer_parts) (x : tensor) : M tensor :=
  match ls with
  | [] => ret x
  | l :: ls' => x' <~ spec_layer_update mask l x ;; spec_layers mask ls' x'
  end.

(** *** The corpus filter as the specification words it *)

Module CorpusSpec.

(** An occurrence of the pattern in [s] starting at position [p]. *)
Definition occurs_at (p : nat) (s : string) : Prop :=
  substring p (String.length Corpus.pattern) s = Corpus.pattern.

(** Two occurrences that do not overlap. *)
Definition two_occurrences (s : string) : Prop :=
  exists p q, occurs_at p s /\ occurs_at q s
              /\ (p + String.length Corpus.pattern <= q)%nat.

(** What is written for an input line. *)
Definition spec_line (s out : string) : Prop :=
  (two_occurrences s -> out = Corpus.newline)
  /\ (~ two_occurrences s -> out = s).

(** The text of a file holding the given pieces in order. *)
Definition written (pieces : list string) : string :=
  fold_right append EmptyString pieces.

End CorpusSpec.

(** *** Concrete inputs *)

(** Two rows of width one. *)
Definition ex_x : tensor := mkT [2%nat; 1%nat] (fun _ => 1).

(** An attention block with one head of width one over inputs of width
    one, hence without output projection. *)
Definition ex_attention (p : R) (training : bool) : Attention :=
  {| att_heads := 1;
     att_scale := / sqrt (INR 1);
     att_dropout := {| drop_p := p; drop_training := training |};
     att_qkv := {| lin_weight := mkT [1%nat; 1%nat] (fun _ => 1);
                   lin_bias := None |};
     att_to_out := None |}.

(** One sequence of two positions. *)
Definition ex_seq : tensor := mkT [1%nat; 2%nat; 1%nat] (fun _ => 0).

(** The mask that suppresses the first position. *)
Definition ex_mask : btensor :=
  mkT [1%nat; 2%nat] (fun idx => match idx with [_; O] => true | _ => false end).

(** The generator that keeps every entry. *)
Definition ex_rng : rng := fun _ _ => true.

Definition ex_layer : layer_parts :=
  {| lp_norm1 := LayerNorm_init 1;
     lp_attn := ex_attention 0 false;
     lp_norm2 := LayerNorm_init 1;
     lp_ff := FeedForward_init 1 1 0 (1 / 10) (fun _ => 0) |}.

Definition ex_embeddings : Embeddings :=
  {| tok_embed := mkT [3%nat; 1%nat] (fun _ => 1);
     pos_embed := mkT [2%nat; 1%nat] (fun _ => 0);
     seg_embed := mkT [2%nat; 1%nat] (fun _ => 0);
     emb_norm := LayerNorm_init 1;
     emb_drop := {| drop_p := 0; drop_training := false |} |}.

Definition ex_ids : ltensor := mkT [1%nat; 2%nat] (fun _ => 1%Z).

Definition ex_init : CRATEInit :=
  {| init_patch_w := fun _ => 0;
     init_patch_b := fun _ => 0;
     init_pos_embedding := fun _ => 0;
     init_cls_token := fun _ => 0;
     init_transformer :=
       {| init_embed := {| init_tok := fun _ => 0;
                           init_pos := fun _ => 0;
                           init_seg := fun _ => 0 |};
          init_attn := fun _ => {| init_qkv := fun _ => 0;
                                   init_out_w := fun _ => 0;
                                   init_out_b := fun _ => 0 |};
          init_ff := fun _ _ => 0 |};
     init_head_w := fun _ => 0;
     init_head_b := fun _ => 0 |}.

(** The arguments of [CRATE_tiny()]. *)
Definition ex_tiny_args : CRATE_args :=
  {| image_size := SInt 224;
     patch_size := SInt 16;
     num_classes := 1000;
     dim := 384;
     depth := 12;
     heads := 6;
     pool := "cls";
     channels := 3;
     dim_head := 64;
     dropout := 0;
     emb_dropout := 0;
     ista := 1 / 10 |}.

(* ===================================================================== *)
(** ** Further definitions: the other presets, shape invariants, inputs   *)
(* ===================================================================== *)

(** [CRATE_small(num_classes)] *)
Definition CRATE_small (num_classes : nat) : CRATEInit -> result CRATE :=
  CRATE_init {| image_size := SInt 224;
                patch_size := SInt 16;
                num_classes := num_classes;
                dim := 576;
                depth := 12;
                heads := 12;
                pool := "cls";
                channels := 3;
                dim_head := 576 / 12;
                dropout := 0;
                emb_dropout := 0;
                ista := 1 / 10 |}.

(** [CRATE_base(num_classes)] *)
Definition CRATE_base (num_classes : nat) : CRATEInit -> result CRATE :=
  CRATE_init {| image_size := SInt 224;
                patch_size := SInt 16;
                num_classes := num_classes;
                dim := 768;
                depth := 12;
                heads := 12;
                pool := "cls";
                channels := 3;
                dim_head := 768 / 12;
                dropout := 0;
                emb_dropout := 0;
                ista := 1 / 10 |}.

(** [CRATE_large(num_classes)] *)
Definition CRATE_large (num_classes : nat) : CRATEInit -> result CRATE :=
  CRATE_init {| image_size := SInt 224;
                patch_size := SInt 16;
                num_classes := num_classes;
                dim := 1024;
                depth := 24;
                heads := 16;
                pool := "cls";
                channels := 3;
                dim_head := 1024 / 16;
                dropout := 0;
                emb_dropout := 0;
                ista := 1 / 10 |}.

(** The shapes of the embedding stage of a classifier for images of [c]
    channels cut into patches of [p1] by [p2] pixels, with [P] patches per
    image at the configured size: the shapes [CRATE.__init__] gives them. *)
Definition CRATE_wf (c p1 p2 dim P : nat) (self : CRATE) : Prop :=
  c_patch_height self = p1 /\ c_patch_width self = p2
  /\ p1 <> O /\ p2 <> O
  /\ ln_dim (c_patch_norm self) = (c * p1 * p2)%nat
  /\ shape (lin_weight (c_patch_linear self)) = [dim; (c * p1 * p2)%nat]
  /\ (exists b, lin_bias (c_patch_linear self) = Some b /\ shape b = [dim])
  /\ ln_dim (c_embed_norm self) = dim
  /\ shape (c_pos_embedding self) = [1%nat; (P + 1)%nat; dim]
  /\ shape (c_cls_token self) = [1%nat; 1%nat; dim].

(** The output stage of an attention block over inputs of width [dim] with
    [h] heads of width [d]: a projection back to [dim] with its bias, or the
    identity when the heads already have that width. *)
Definition to_out_wf (dim h d : nat) (self : Attention) : Prop :=
  match att_to_out self with
  | Some (l, _) =>
      shape (lin_weight l) = [dim; (d * h)%nat]
      /\ exists b, lin_bias l = Some b /\ shape b = [dim]
  | None => (h * d)%nat = dim
  end.

(** A mask an attention call over [b] sequences of [n] positions accepts:
    none, or a boolean tensor of shape (b, n). *)
Definition mask_ok (b n : nat) (mask : pyval) : Prop :=
  mask = VNone \/ exists m, mask = VBoolTensor m /\ shape m = [b; n].

(** The shapes of one layer of a stack of width [dim] whose attention has
    [h] heads of width [d]. *)
Definition layer_wf (dim h d : nat) (l : layer_parts) : Prop :=
  ln_dim (lp_norm1 l) = dim
  /\ Attention_wf dim h d (lp_attn l)
  /\ to_out_wf dim h d (lp_attn l)
  /\ ln_dim (lp_norm2 l) = dim
  /\ shape (ff_weight (lp_ff l)) = [dim; dim].

(** The shapes of an embedding module: three tables of width [dim]. *)
Definition Embeddings_wf (dim vocab maxlen nseg : nat) (e : Embeddings) : Prop :=
  shape (tok_embed e) = [vocab; dim]
  /\ shape (pos_embed e) = [maxlen; dim]
  /\ shape (seg_embed e) = [nseg; dim]
  /\ ln_dim (emb_norm e) = dim.

(** Every entry of [ids] is an index into a table of [num] rows. *)
Definition ids_in_range (ids : ltensor) (num : nat) : Prop :=
  forall idx, valid (shape ids) idx ->
              (0 <= data ids idx)%Z /\ (data ids idx < Z.of_nat num)%Z.

(** *** Further concrete inputs *)

(** A configuration with two layers and two heads of width two. *)
Definition ex_cfg : Config :=
  {| vocab_size := 10;
     cfg_dim := 4;
     n_layers := 2;
     n_heads := 2;
     p_drop_hidden := 0;
     p_drop_attn := 0;
     max_len := 16;
     n_segments := 2 |}.

(** A configuration with more heads than dimensions. *)
Definition ex_cfg_heads : Config :=
  {| vocab_size := 10;
     cfg_dim := 4;
     n_layers := 2;
     n_heads := 8;
     p_drop_hidden := 0;
     p_drop_attn := 0;
     max_len := 16;
     n_segments := 2 |}.

(** Ids of one sequence of three positions, one more than [ex_embeddings]
    has. *)
Definition ex_long_ids : ltensor := mkT [1%nat; 3%nat] (fun _ => 1%Z).

(** The mask that marks no position. *)
Definition ex_no_mask : btensor := mkT [1%nat; 2%nat] (fun _ => false).

(** The identity matrix. *)
Definition ex_identity (idx : list nat) : R :=
  match idx with
  | [i; j] => if (i =? j)%nat then 1 else 0
  | _ => 0
  end.

(** A classifier value for images of one channel and patches of [p] by [p]
    pixels, with two positions. *)
Definition ex_crate (p : nat) : CRATE :=
  {| c_patch_height := p;
     c_patch_width := p;
     c_patch_norm := LayerNorm_init (1 * p * p);
     c_patch_linear := Linear_init (1 * p * p) 1 true (fun _ => 0) (fun _ => 0);
     c_embed_norm := LayerNorm_init 1;
     c_pos_embedding := mkT [1%nat; 2%nat; 1%nat] (fun _ => 0);
     c_cls_token := mkT [1%nat; 1%nat; 1%nat] (fun _ => 0);
     c_dropout := {| drop_p := 0; drop_training := false |};
     c_transformer := mkTransformer ex_embeddings (map wrap [ex_layer]);
     c_pool := "cls";
     c_head_norm := LayerNorm_init 1;
     c_head_linear := Linear_init 1 2 true (fun _ => 0) (fun _ => 0) |}.

(** An image of one pixel. *)
Definition ex_img : tensor := mkT [1%nat; 1%nat; 1%nat; 1%nat] (fun _ => 1).

(* ===================================================================== *)
(** ** Lemmas on sums, indices and broadcasting                           *)
(* ===================================================================== *)

Local Close Scope string_scope.

Lemma sum_n_ext (n : nat) (f g : nat -> R) :
  (forall i, (i < n)%nat -> f i = g i) -> sum_n n f = sum_n n g.
Proof.
  induction n as [|n IH]; intros H; simpl; [reflexivity|].
  rewrite IH, (H n) by (intros; try apply H; lia). reflexivity.
Qed.

Lemma sum_n_zero (n : nat) (f : nat -> R) :
  (forall i, (i < n)%nat -> f i = 0) -> sum_n n f = 0.
Proof.
  induction n as [|n IH]; intros H; simpl; [reflexivity|].
  rewrite IH, (H n) by (intros; try apply H; lia). lra.
Qed.

Lemma sum_n_minus (n : nat) (f g : nat -> R) :
  sum_n n (fun j => f j - g j) = sum_n n f - sum_n n g.
Proof.
  induction n as [|n IH]; simpl; [lra|]. rewrite IH. lra.
Qed.

Lemma valid_rev (s idx : list nat) : valid s idx -> valid (rev s) (rev idx).
Proof.
  unfold valid. induction 1 as [|i d idx s Hid _ IH]; simpl; [constructor|].
  apply Forall2_app; [exact IH | repeat constructor; exact Hid].
Qed.

Lemma valid_snoc_inv (s idx : list nat) (d : nat) :
  valid (s ++ [d]) idx ->
  exists pre j, idx = pre ++ [j] /\ valid s pre /\ (j < d)%nat.
Proof.
  intros H. apply Forall2_app_inv_r in H.
  destruct H as (pre & l & Hpre & Hl & ->).
  inversion Hl as [|j d' l' s' Hj Hnil]; subst. inversion Hnil; subst.
  exists pre, j. auto.
Qed.

Lemma bidx_rev_valid (s idx : list nat) : valid s idx -> bidx_rev s idx = idx.
Proof.
  induction 1 as [|i d idx s Hid _ IH]; simpl; [reflexivity|].
  rewrite IH. destruct (Nat.eqb_spec d 1) as [->|_]; [|reflexivity].
  f_equal. lia.
Qed.

(** Within the shape of an operand, broadcasting reads the operand at the
    index of the result. *)
Lemma bidx_valid (s idx : list nat) : valid s idx -> bidx s idx = idx.
Proof.
  intros H. unfold bidx. rewrite bidx_rev_valid by (apply valid_rev; exact H).
  apply rev_involutive.
Qed.

Lemma broadcast_rev_same (s : list nat) : broadcast_rev s s = Some s.
Proof.
  induction s as [|d s IH]; simpl; [reflexivity|].
  rewrite IH, Nat.eqb_refl. reflexivity.
Qed.

Lemma broadcast_shapes_same (s : list nat) : broadcast_shapes s s = Some s.
Proof.
  unfold broadcast_shapes. rewrite broadcast_rev_same. simpl.
  rewrite rev_involutive. reflexivity.
Qed.

Lemma broadcast_rev_mask (b h n : nat) :
  broadcast_rev [n; n; h; b] [n; 1%nat; 1%nat; b] = Some [n; n; h; b].
Proof.
  cbn [broadcast_rev]. rewrite !Nat.eqb_refl.
  destruct (Nat.eqb_spec h 1) as [->|_]; cbn [Nat.eqb];
    destruct (Nat.eqb_spec n 1) as [->|_]; reflexivity.
Qed.

Lemma map2_same (op : R -> R -> R) (a b : tensor) :
  shape b = shape a ->
  map2 op a b =
  Ok (mkT (shape a) (fun idx => op (data a (bidx (shape a) idx))
                                   (data b (bidx (shape a) idx)))).
Proof.
  intros H. unfold map2. rewrite H, broadcast_shapes_same. reflexivity.
Qed.

Lemma linear_ok (x W : tensor) (batch : list nat) (o k : nat) :
  shape W = [o; k] -> shape x = batch ++ [k] ->
  linear x W =
  Ok (mkT (batch ++ [o])
          (fun idx => sum_n k (fun l =>
             data x (removelast idx ++ [l]) * data W [last idx O; l]))).
Proof.
  intros HW Hx. unfold linear. rewrite HW, Hx, rev_app_distr. simpl.
  rewrite Nat.eqb_refl, rev_involutive. reflexivity.
Qed.

Lemma t_ok (W : tensor) (n m : nat) :
  shape W = [n; m] -> t W = Ok (mkT [m; n] (fun idx => data W (rev idx))).
Proof. intros H. unfold t. rewrite H. reflexivity. Qed.

Lemma softmax_ok (a : tensor) (s : list nat) (n : nat) :
  shape a = s ++ [n] ->
  softmax a =
  Ok (mkT (s ++ [n]) (fun idx =>
        exp (data a idx) / sum_n n (fun j => exp (data a (removelast idx ++ [j]))))).
Proof.
  intros H. unfold softmax. rewrite H, rev_app_distr. reflexivity.
Qed.

(* ===================================================================== *)
(** ** Lemmas on the monad of forward passes                              *)
(* ===================================================================== *)

Lemma mbind_ext {A B : Type} (m : M A) (k k' : A -> M B) (g : rng) :
  (forall a g', k a g' = k' a g') -> mbind m k g = mbind m k' g.
Proof.
  intros H. unfold mbind. destruct (m g) as [[a g']|e]; [apply H | reflexivity].
Qed.

Lemma mbind_cong {A B : Type} (m m' : M A) (k : A -> M B) (g : rng) :
  m g = m' g -> mbind m k g = mbind m' k g.
Proof. intros H. unfold mbind. rewrite H. reflexivity. Qed.

Lemma mbind_assoc {A B C : Type} (m : M A) (k : A -> M B) (k' : B -> M C) (g : rng) :
  mbind (mbind m k) k' g = mbind m (fun a => mbind (k a) k') g.
Proof.
  unfold mbind. destruct (m g) as [[a g']|e]; reflexivity.
Qed.

Lemma mbind_ret_r {A : Type} (m : M A) (g : rng) : mbind m (@ret A) g = m g.
Proof.
  unfold mbind, ret. destruct (m g) as [[a g']|e]; reflexivity.
Qed.

Lemma mbind_never_succeeds {A B : Type} (m : M A) (k : A -> M B) (g : rng) :
  (forall a g', succeeds (k a g') = false) -> succeeds (mbind m k g) = false.
Proof.
  intros H. unfold mbind. destruct (m g) as [[a g']|e]; [apply H | reflexivity].
Qed.

(* ===================================================================== *)
(** ** The feed-forward block                                             *)
(* ===================================================================== *)

(** On an input whose last dimension is the size of the dictionary, the
    block returns a tensor of the shape of the input whose entries are those
    of the specification. *)
Lemma FeedForward_forward_eq (self : FeedForward) (x : tensor)
      (batch : list nat) (n : nat) :
  shape (ff_weight self) = [n; n] ->
  shape x = batch ++ [n] ->
  exists out,
    FeedForward_forward self x = Ok out
    /\ shape out = shape x
    /\ forall idx, valid (shape x) idx ->
         data out idx =
         spec_feed_forward n (ff_step_size self) (ff_lambd self)
                           (entries (ff_weight self)) (data x) idx.
Proof.
  intros HW Hx. unfold FeedForward_forward.
  rewrite (linear_ok x (ff_weight self) batch HW Hx).
  rewrite (t_ok _ HW). cbn [Py.bind].
  rewrite (@linear_ok _ _ batch n n) by reflexivity.
  rewrite (@linear_ok _ _ batch n n) by (reflexivity || exact Hx).
  cbn [Py.bind]. unfold tsub, tadd.
  rewrite map2_same by reflexivity. cbn [Py.bind].
  rewrite map2_same by (symmetry; exact Hx). cbn [Py.bind].
  eexists. split; [reflexivity|]. split; [reflexivity|].
  intros idx Hidx. cbn [data shape relu tmap sub_scalar scalar_mul].
  rewrite (bidx_valid Hidx).
  rewrite Hx in Hidx. rewrite (bidx_valid Hidx).
  reflexivity.
Qed.

(** C3: for every input x whose last dimension is dim, every dictionary D
    and every step size s, the feed-forward block returns
    ReLU(x + s ((x.D) - (x.Dt).D) - s lambda) with lambda = 0.1, computed as
    x1 = x.Dt, grad_1 = x1.D, grad_2 = x.D,
    update = s (grad_2 - grad_1) - s lambda, output = ReLU(x + update). *)
Theorem FeedForward_forward_spec
        (dim hidden_dim : nat) (dropout s : R) (D : list nat -> R)
        (x : tensor) (batch : list nat) :
  shape x = batch ++ [dim] ->
  exists out,
    FeedForward_forward (FeedForward_init dim hidden_dim dropout s D) x = Ok out
    /\ shape out = shape x
    /\ forall idx, valid (shape x) idx ->
         let Dm := fun i j => D [i; j] in
         let xD := rowmat dim (data x) Dm in
         let xDtD := rowmat dim (rowmat dim (data x) (transposed Dm)) Dm in
         data out idx = spec_feed_forward dim s (1 / 10) Dm (data x) idx
         /\ data out idx
            = Rmax 0 (data x idx + s * (xD idx - xDtD idx) - s * (1 / 10)).
Proof.
  intros Hx.
  destruct (@FeedForward_forward_eq (FeedForward_init dim hidden_dim dropout s D)
              x batch dim eq_refl Hx) as (out & Hrun & Hshape & Hdata).
  exists out. split; [exact Hrun|]. split; [exact Hshape|].
  intros idx Hidx Dm xD xDtD. rewrite (Hdata idx Hidx).
  split; [reflexivity|].
  unfold spec_feed_forward. f_equal. subst xD xDtD Dm.
  unfold entries. cbn [ff_weight ff_step_size ff_lambd FeedForward_init data]. ring.
Qed.

Lemma FeedForward_forward_spec_witness :
  exists out,
    FeedForward_forward (FeedForward_init 1 1 0 (1 / 10) (fun _ => 2)) ex_x = Ok out
    /\ shape out = shape ex_x
    /\ forall idx, valid (shape ex_x) idx ->
         let Dm := fun i j : nat => (fun _ : list nat => 2) [i; j] in
         let xD := rowmat 1 (data ex_x) Dm in
         let xDtD := rowmat 1 (rowmat 1 (data ex_x) (transposed Dm)) Dm in
         data out idx = spec_feed_forward 1 (1 / 10) (1 / 10) Dm (data ex_x) idx
         /\ data out idx
            = Rmax 0 (data ex_x idx + 1 / 10 * (xD idx - xDtD idx) - 1 / 10 * (1 / 10)).
Proof.
  apply (@FeedForward_forward_spec 1 1 0 (1 / 10) (fun _ => 2) ex_x [2%nat]).
  reflexivity.
Defined.

(** C8: if the dictionary is the zero matrix, the output of the
    feed-forward block is ReLU(x - s lambda), with lambda = 0.1. *)
Theorem FeedForward_zero_dictionary
        (dim hidden_dim : nat) (dropout s : R) (D : list nat -> R)
        (x : tensor) (batch : list nat) :
  shape x = batch ++ [dim] ->
  (forall i j, (i < dim)%nat -> (j < dim)%nat -> D [i; j] = 0) ->
  exists out,
    FeedForward_forward (FeedForward_init dim hidden_dim dropout s D) x = Ok out
    /\ shape out = shape x
    /\ forall idx, valid (shape x) idx ->
         data out idx = Rmax 0 (data x idx - s * (1 / 10)).
Proof.
  intros Hx HD.
  destruct (@FeedForward_forward_eq (FeedForward_init dim hidden_dim dropout s D)
              x batch dim eq_refl Hx) as (out & Hrun & Hshape & Hdata).
  exists out. split; [exact Hrun|]. split; [exact Hshape|].
  intros idx Hidx. rewrite (Hdata idx Hidx).
  rewrite Hx in Hidx. apply valid_snoc_inv in Hidx.
  destruct Hidx as (pre & j & -> & _ & Hj).
  unfold spec_feed_forward, rowmat, entries.
  cbn [ff_weight ff_step_size ff_lambd FeedForward_init data].
  rewrite last_last.
  rewrite !sum_n_zero.
  - f_equal. lra.
  - intros k Hk. rewrite (HD k j Hk Hj). lra.
  - intros k Hk. rewrite (HD k j Hk Hj). lra.
Qed.

Lemma FeedForward_zero_dictionary_witness :
  exists out,
    FeedForward_forward (FeedForward_init 1 1 0 (1 / 10) (fun _ => 0)) ex_x = Ok out
    /\ shape out = shape ex_x
    /\ forall idx, valid (shape ex_x) idx ->
         data out idx = Rmax 0 (data ex_x idx - 1 / 10 * (1 / 10)).
Proof.
  apply (@FeedForward_zero_dictionary 1 1 0 (1 / 10) (fun _ => 0) ex_x [2%nat]).
  - reflexivity.
  - intros i j _ _. reflexivity.
Defined.

(** C9: two feed-forward blocks built with the same dim, hidden_dim,
    step_size and dictionary but different dropout arguments return the same
    result on every input. *)
Theorem FeedForward_dropout_unused
        (dim hidden_dim : nat) (dropout1 dropout2 s : R) (D : list nat -> R)
        (x : tensor) :
  FeedForward_forward (FeedForward_init dim hidden_dim dropout1 s D) x
  = FeedForward_forward (FeedForward_init dim hidden_dim dropout2 s D) x.
Proof. reflexivity. Qed.

(* ===================================================================== *)
(** ** The attention block                                                *)
(* ===================================================================== *)

Lemma Attention_init_wf (dim h d : nat) (p : R) (w : AttentionInit) (self : Attention) :
  h <> O -> Attention_init dim h d p w = Ok self -> Attention_wf dim h d self.
Proof.
  intros Hh. unfold Attention_init.
  destruct (d =? 0)%nat; [discriminate|]. cbn [Py.bind].
  destruct (Dropout_init p) as [dr|]; [|discriminate]. cbn [Py.bind].
  destruct (negb _); cbn [Py.bind]; intros [= <-]; repeat split; auto.
Qed.

Lemma Attention_w_ok (self : Attention) (x : tensor) (b n dim h d : nat) :
  Attention_wf dim h d self -> shape x = [b; n; dim] ->
  exists w, Attention_w self x = Ok w /\ shape w = [b; h; n; d].
Proof.
  intros (Hh & Hh0 & HW & Hb) Hx. unfold Attention_w, Linear_forward.
  rewrite (@linear_ok x _ [b; n] _ _ HW Hx), Hb. cbn [Py.bind].
  unfold rearrange_split_heads. cbn [shape app]. rewrite Hh.
  destruct (Nat.eqb_spec h 0) as [?|_]; [contradiction|].
  rewrite Nat.Div0.mod_mul, Nat.eqb_refl, Nat.div_mul by exact Hh0.
  eexists. split; reflexivity.
Qed.

Lemma Attention_dots_ok (self : Attention) (w : tensor) (b h n d : nat) :
  shape w = [b; h; n; d] ->
  exists dots,
    Attention_dots self w = Ok dots /\ shape dots = [b; h; n; n]
    /\ forall ib ih i j, data dots [ib; ih; i; j] = data dots [ib; ih; j; i].
Proof.
  intros Hw. unfold Attention_dots, transpose_last2, matmul.
  rewrite Hw. cbn [rev app Py.bind shape].
  rewrite Nat.eqb_refl, broadcast_rev_same. cbn [Py.bind].
  eexists. split; [reflexivity|]. split; [reflexivity|].
  intros ib ih i j. cbn. f_equal. apply sum_n_ext. intros l _. apply Rmult_comm.
Qed.

Lemma Dropout_init_ok (p : R) :
  0 <= p <= 1 ->
  Dropout_init p = Ok {| drop_p := p; drop_training := true |}.
Proof.
  intros [H0 H1]. unfold Dropout_init.
  destruct (Rlt_dec p 0) as [H|_]; [lra|].
  destruct (Rlt_dec 1 p) as [H|_]; [lra|]. reflexivity.
Qed.

Lemma Dropout_forward_ok (self : Dropout) (x : tensor) (g : rng) :
  exists y g',
    Dropout_forward self x g = Ok (y, g') /\ shape y = shape x
    /\ (dropout_inactive self -> y = x).
Proof.
  unfold Dropout_forward, dropout_inactive.
  destruct (drop_training self).
  - destruct (Rlt_dec 0 (drop_p self)) as [Hp|Hp].
    + eexists _, _. split; [reflexivity|]. split; [reflexivity|].
      intros [H|H]; [discriminate | lra].
    + eexists _, _. split; [reflexivity|]. auto.
  - eexists _, _. split; [reflexivity|]. auto.
Qed.

Lemma apply_mask_bool (attn : tensor) (m : btensor) (b h n : nat) :
  shape attn = [b; h; n; n] -> shape m = [b; n] ->
  exists out,
    apply_mask attn (VBoolTensor m) = Ok out /\ shape out = [b; h; n; n]
    /\ forall ib ih i j, (ib < b)%nat -> (ih < h)%nat -> (i < n)%nat -> (j < n)%nat ->
         data out [ib; ih; i; j]
         = data attn [ib; ih; i; j] * (1 - (if data m [ib; j] then 1 else 0)).
Proof.
  intros Ha Hm. unfold apply_mask, index_mask. rewrite Hm. cbn [Py.bind].
  unfold tmul, map2, broadcast_shapes. rewrite Ha.
  cbn [shape scalar_sub float tmap rev app].
  rewrite broadcast_rev_mask. cbn [option_map rev app].
  eexists. split; [reflexivity|]. split; [reflexivity|].
  intros ib ih i j Hib Hih Hi Hj. cbn [data].
  rewrite (@bidx_valid [b; h; n; n] [ib; ih; i; j])
    by (repeat constructor; assumption).
  unfold bidx. cbn [rev app bidx_rev Nat.eqb].
  replace (if (n =? 1)%nat then O else j) with j
    by (destruct (Nat.eqb_spec n 1); lia).
  replace (if (b =? 1)%nat then O else ib) with ib
    by (destruct (Nat.eqb_spec b 1); lia).
  reflexivity.
Qed.

(** C5, as amended: in every attention call on a sequence (B, N, dim) with
    a boolean mask (B, N), the attention weights that multiply the values
    are zero in every column whose key position is masked: the mask is
    applied after the softmax and after the dropout on the weights, as
    attn * (1 - mask).  When that dropout is inactive (evaluation mode or
    probability 0) the rows are not renormalized: every unmasked entry
    keeps its softmax weight, so a row whose masked entries had positive
    softmax weight loses exactly those weights, and its sum is the sum of
    the softmax row minus the masked weights.  The entries being real
    numbers, the statement is for scores that do not overflow. *)
Theorem Attention_mask_suppresses
        (self : Attention) (x : tensor) (m : btensor) (g : rng)
        (b n dim h d : nat) :
  Attention_wf dim h d self -> shape x = [b; n; dim] -> shape m = [b; n] ->
  exists attn w g',
    Attention_attn self x (VBoolTensor m) g = Ok ((attn, w), g')
    /\ shape attn = [b; h; n; n]
    /\ (forall ib ih i j,
          (ib < b)%nat -> (ih < h)%nat -> (i < n)%nat -> (j < n)%nat ->
          data m [ib; j] = true -> data attn [ib; ih; i; j] = 0)
    /\ (dropout_inactive (att_dropout self) ->
        exists dots sm,
          Attention_dots self w = Ok dots /\ softmax dots = Ok sm
          /\ (forall ib ih i j,
                (ib < b)%nat -> (ih < h)%nat -> (i < n)%nat -> (j < n)%nat ->
                data attn [ib; ih; i; j]
                = data sm [ib; ih; i; j] * (1 - (if data m [ib; j] then 1 else 0))
                /\ (data m [ib; j] = false ->
                    data attn [ib; ih; i; j] = data sm [ib; ih; i; j])
                /\ (data m [ib; j] = true -> 0 < data sm [ib; ih; i; j] ->
                    data attn [ib; ih; i; j] < data sm [ib; ih; i; j]))
          /\ (forall ib ih i,
                (ib < b)%nat -> (ih < h)%nat -> (i < n)%nat ->
                sum_n n (fun j => data attn [ib; ih; i; j])
                = sum_n n (fun j => data sm [ib; ih; i; j])
                  - sum_n n (fun j => if data m [ib; j]
                                      then data sm [ib; ih; i; j] else 0))).
Proof.
  intros Hwf Hx Hm.
  destruct (Attention_w_ok x Hwf Hx) as (w & Hw & Hws).
  destruct (Attention_dots_ok self w Hws) as (dots & Hd & Hds & _).
  pose proof (@softmax_ok dots [b; h; n] n Hds) as Hsm. cbn [app] in Hsm.
  set (sm := mkT [b; h; n; n] _) in Hsm.
  destruct (Dropout_forward_ok (att_dropout self) sm g)
    as (dr & g' & Hdr & Hdrs & Hinact).
  destruct (apply_mask_bool dr m Hdrs Hm) as (attn & Ha & Has & Hdata).
  exists attn, w, g'.
  split.
  { unfold Attention_attn, mbind, lift, ret. rewrite Hw, Hd, Hsm, Hdr, Ha.
    reflexivity. }
  split; [exact Has|]. split.
  - intros ib ih i j Hib Hih Hi Hj Hmask.
    rewrite (Hdata ib ih i j Hib Hih Hi Hj), Hmask. lra.
  - intros Hoff. specialize (Hinact Hoff). subst dr.
    exists dots, sm. split; [exact Hd|]. split; [exact Hsm|]. split.
    + intros ib ih i j Hib Hih Hi Hj.
      pose proof (Hdata ib ih i j Hib Hih Hi Hj) as He.
      split; [exact He|]. split.
      * intros Hmask. rewrite He, Hmask. lra.
      * intros Hmask Hpos. rewrite He, Hmask. lra.
    + intros ib ih i Hib Hih Hi.
      rewrite <- sum_n_minus. apply sum_n_ext. intros j Hj.
      rewrite (Hdata ib ih i j Hib Hih Hi Hj).
      destruct (data m [ib; j]); lra.
Qed.

(** In evaluation mode, with the first of two positions masked, the first
    column of the attention weights is zero, the second column keeps its
    softmax weight, and the row sum is the softmax row sum less the first
    weight. *)
Lemma Attention_mask_suppresses_witness :
  exists attn w g',
    Attention_attn (ex_attention 0 false) ex_seq (VBoolTensor ex_mask) ex_rng
    = Ok ((attn, w), g')
    /\ shape attn = [1; 1; 2; 2]%nat
    /\ data attn [O; O; O; O] = 0
    /\ exists dots sm,
         Attention_dots (ex_attention 0 false) w = Ok dots /\ softmax dots = Ok sm
         /\ data attn [O; O; O; 1%nat] = data sm [O; O; O; 1%nat]
         /\ sum_n 2 (fun j => data attn [O; O; O; j])
            = sum_n 2 (fun j => data sm [O; O; O; j])
              - sum_n 2 (fun j => if data ex_mask [O; j]
                                  then data sm [O; O; O; j] else 0).
Proof.
  destruct (@Attention_mask_suppresses (ex_attention 0 false) ex_seq ex_mask ex_rng
              1 2 1 1 1)
    as (attn & w & g' & Hrun & Hshape & Hcol & Hrow).
  - repeat split. discriminate.
  - reflexivity.
  - reflexivity.
  - exists attn, w, g'. split; [exact Hrun|]. split; [exact Hshape|]. split.
    + apply Hcol; try lia. reflexivity.
    + destruct (Hrow (or_introl eq_refl)) as (dots & sm & Hd & Hsm & He & Hs).
      exists dots, sm. split; [exact Hd|]. split; [exact Hsm|]. split.
      * apply (He O O O 1%nat); try lia. reflexivity.
      * apply (Hs O O O); lia.
Defined.

(** C5, as stated, fails in training mode: with dropout probability 1/2
    and every entry kept, the softmax weights 1/2, 1/2 of a row are scaled
    to 1, 1 before the mask zeroes the first, and the row sums to 1. *)
Lemma Attention_mask_row_sum_counterexample :
  exists attn w g' dots sm,
    Attention_attn (ex_attention (1 / 2) true) ex_seq (VBoolTensor ex_mask) ex_rng
    = Ok ((attn, w), g')
    /\ Attention_dots (ex_attention (1 / 2) true) w = Ok dots
    /\ softmax dots = Ok sm
    /\ data ex_mask [O; O] = true
    /\ 0 < data sm [O; O; O; O]
    /\ ~ sum_n 2 (fun j => data attn [O; O; O; j]) < 1.
Proof.
  unfold Attention_attn, mbind, lift, ret.
  unfold Attention_w, Attention_dots, Linear_forward, linear, rearrange_split_heads,
    transpose_last2, matmul, softmax, Dropout_forward, draw, mbind, ret.
  cbn [ex_attention ex_seq ex_mask att_qkv att_heads att_dropout att_scale
       lin_weight lin_bias shape data rev app Nat.eqb Py.bind Nat.modulo Nat.div
       drop_training drop_p broadcast_rev mul_scalar tmap Nat.divmod fst snd].
  destruct (Rlt_dec 0 (1 / 2)) as [_|H]; [|exfalso; lra].
  unfold apply_mask, index_mask, tmul, map2, broadcast_shapes.
  cbn [shape data rev app Nat.eqb Py.bind broadcast_rev option_map scalar_sub
       float tmap].
  eexists _, _, _, _, _.
  split; [reflexivity|]. split; [reflexivity|]. split; [reflexivity|].
  split; [reflexivity|].
  cbn.
  replace ((0 + (0 + 0 * 1) * (0 + 0 * 1)) * / sqrt 1) with 0 by ring.
  rewrite exp_0. split; lra.
Qed.

(** C10: queries, keys and values are one projection w, so the scores
    dots = (w . wt) * scale are symmetric:
    dots[b, h, i, j] = dots[b, h, j, i]. *)
Theorem Attention_dots_symmetric
        (self : Attention) (x : tensor) (b n dim h d : nat) :
  Attention_wf dim h d self -> shape x = [b; n; dim] ->
  exists w dots,
    Attention_w self x = Ok w
    /\ Attention_dots self w = Ok dots
    /\ shape dots = [b; h; n; n]
    /\ forall ib ih i j, data dots [ib; ih; i; j] = data dots [ib; ih; j; i].
Proof.
  intros Hwf Hx.
  destruct (Attention_w_ok x Hwf Hx) as (w & Hw & Hws).
  destruct (Attention_dots_ok self w Hws) as (dots & Hd & Hds & Hsym).
  exists w, dots. auto.
Qed.

Lemma Attention_dots_symmetric_witness :
  exists w dots,
    Attention_w (ex_attention 0 false) ex_seq = Ok w
    /\ Attention_dots (ex_attention 0 false) w = Ok dots
    /\ shape dots = [1; 1; 2; 2]%nat
    /\ forall ib ih i j, data dots [ib; ih; i; j] = data dots [ib; ih; j; i].
Proof.
  apply (@Attention_dots_symmetric (ex_attention 0 false) ex_seq 1 2 1 1 1).
  - repeat split. discriminate.
  - reflexivity.
Defined.

(* ===================================================================== *)
(** ** PreNorm and the transformer stack                                  *)
(* ===================================================================== *)

(** C4 fails: without a mask the wrapper calls the attention block with the
    normalised input alone, and [Attention.forward] has no default for its
    [mask] parameter, so the call raises TypeError once the normalisation
    has succeeded. *)
Theorem PreNorm_Attention_without_mask (norm : LayerNorm) (a : Attention)
        (x : tensor) (g : rng) :
  PreNorm_forward (mkPreNorm norm (BAttention a)) x VNone g
  = match LayerNorm_forward norm x with
    | Ok _ => Raise TypeError
    | Raise e => Raise e
    end.
Proof.
  unfold PreNorm_forward, mbind, lift. cbn [pn_norm pn_fn].
  destruct (LayerNorm_forward norm x); reflexivity.
Qed.

(** The same call on a concrete block and input. *)
Example PreNorm_Attention_without_mask_example :
  PreNorm_forward (PreNorm_init 1 (BAttention (ex_attention 0 false)))
                  ex_seq VNone ex_rng
  = Raise TypeError.
Proof. reflexivity. Qed.

Lemma call_Attention_with_mask (a : Attention) (x : tensor) (mask : pyval) (g : rng) :
  call_block (BAttention a) [VTensor x; mask] g = Attention_forward a x mask g.
Proof. reflexivity. Qed.

Lemma call_FeedForward (f : FeedForward) (x : tensor) (g : rng) :
  call_block (BFeedForward f) [VTensor x] g = lift (FeedForward_forward f x) g.
Proof.
  unfold call_block, mbind, lift. cbn.
  destruct (FeedForward_forward f x); reflexivity.
Qed.

(** With a mask, the wrapper passes it on to the attention block. *)
Lemma PreNorm_Attention_with_mask (norm : LayerNorm) (a : Attention)
      (x : tensor) (mask : pyval) (g : rng) :
  mask <> VNone ->
  PreNorm_forward (mkPreNorm norm (BAttention a)) x mask g
  = (nx <~ lift (LayerNorm_forward norm x) ;; Attention_forward a nx mask) g.
Proof.
  intros Hmask. unfold PreNorm_forward. cbn [pn_norm pn_fn].
  destruct mask; try contradiction; apply mbind_ext; intros;
    apply call_Attention_with_mask.
Qed.

Lemma PreNorm_FeedForward (norm : LayerNorm) (f : FeedForward) (x : tensor) (g : rng) :
  PreNorm_forward (mkPreNorm norm (BFeedForward f)) x VNone g
  = (nx <~ lift (LayerNorm_forward norm x) ;; lift (FeedForward_forward f nx)) g.
Proof.
  unfold PreNorm_forward. cbn [pn_norm pn_fn].
  apply mbind_ext. intros. apply call_FeedForward.
Qed.

Lemma Transformer_step_spec (mask : pyval) (l : layer_parts) (x : tensor) (g : rng) :
  Transformer_step mask (wrap l) x g = spec_layer_update mask l x g.
Proof.
  unfold Transformer_step, spec_layer_update, wrap.
  apply mbind_ext. intros a g1. apply mbind_ext. intros grad_x g2.
  apply PreNorm_FeedForward.
Qed.

Lemma Transformer_loop_spec (mask : pyval) (ls : list layer_parts) :
  forall (acc : M tensor) (g : rng),
    fold_left (fun (acc : M tensor) layer =>
                 x <~ acc ;; Transformer_step mask layer x)
              (map wrap ls) acc g
    = (x <~ acc ;; spec_layers mask ls x) g.
Proof.
  induction ls as [|l ls IH]; intros acc g; cbn [map fold_left spec_layers].
  - symmetry. apply mbind_ret_r.
  - rewrite IH, mbind_assoc. apply mbind_ext. intros x g1.
    apply mbind_cong. apply Transformer_step_spec.
Qed.

(** C6: in every layer of the stack the running representation x is
    updated by grad_x = PreNorm(Attention)(x, mask) + x and then replaced by
    the output of the feed-forward block on the normalised grad_x; nothing
    is added to that output. *)
Theorem Transformer_forward_layers
        (embed : Embeddings) (ls : list layer_parts) (x seg mask : pyval) (g : rng) :
  Transformer_forward (mkTransformer embed (map wrap ls)) x seg mask g
  = (x0 <~ Embeddings_forward embed x seg ;; spec_layers mask ls x0) g.
Proof.
  unfold Transformer_forward. cbn [tr_embed tr_layers].
  apply mbind_ext. intros x0 g0.
  rewrite (Transformer_loop_spec mask ls (ret x0) g0). reflexivity.
Qed.

(** The layers the constructor builds are of the form [wrap l]. *)
Lemma Transformer_build_layers (dim heads dim_head : nat) (dropout ista : R)
      (w : TransformerInit) (ks : list nat) :
  forall (acc : list layer_parts) (layers : list (PreNorm * PreNorm)),
    fold_left
      (fun (acc : result (list (PreNorm * PreNorm))) (k : nat) =>
         ls <- acc ;;
         l <- Transformer_layer dim heads dim_head dropout ista w k ;;
         Ok (ls ++ [l]))
      ks (Ok (map wrap acc)) = Ok layers ->
    exists ls, layers = map wrap ls
               /\ List.length ls = (List.length acc + List.length ks)%nat.
Proof.
  induction ks as [|k ks IH]; intros acc layers; cbn [fold_left].
  - intros [= <-]. exists acc. split; [reflexivity | cbn; lia].
  - cbn [Py.bind]. unfold Transformer_layer at 2.
    destruct (Attention_init dim heads dim_head dropout (init_attn w k)) as [a|e].
    + cbn [Py.bind]. unfold PreNorm_init.
      change (map wrap acc ++ [(_, _)])
        with (map wrap acc ++ map wrap
                [mkLayerParts (LayerNorm_init dim) a (LayerNorm_init dim)
                   (FeedForward_init dim dim dropout ista (init_ff w k))]).
      rewrite <- map_app. intros H. apply IH in H.
      destruct H as (ls & Hls & Hlen). exists ls. split; [exact Hls|].
      rewrite Hlen, length_app. cbn. lia.
    + cbn [Py.bind]. intros H. exfalso. clear IH.
      induction ks as [|k' ks IH']; cbn [fold_left] in H; [discriminate|].
      apply IH'. exact H.
Qed.

Lemma Transformer_init_layers (args : list pyval) (kwargs : list (string * pyval))
      (w : TransformerInit) (self : Transformer) :
  Transformer_init args kwargs w = Ok self ->
  exists ls, tr_layers self = map wrap ls.
Proof.
  unfold Transformer_init.
  destruct (bind_args Transformer_init_sig args kwargs) as [env|]; [|discriminate].
  cbn [Py.bind].
  destruct (lookup "cfg" env) as [[| | | | | |cfg]|]; try discriminate.
  cbn [Py.bind].
  destruct (match lookup "ista" env with
            | None => Ok (1 / 10)
            | Some (VFloat r) => Ok r
            | Some (VInt n) => Ok (INR n)
            | Some _ => Raise TypeError
            end) as [ista|]; [|discriminate].
  cbn [Py.bind].
  destruct (floordiv (cfg_dim cfg) (n_heads cfg)) as [dh|]; [|discriminate].
  cbn [Py.bind].
  destruct (Embeddings_init cfg (init_embed w)) as [embed|]; [|discriminate].
  cbn [Py.bind].
  destruct (fold_left _ _ _) as [layers|] eqn:Hfold; [|discriminate].
  cbn [Py.bind]. intros [= <-]. cbn [tr_layers].
  destruct (@Transformer_build_layers _ _ _ _ _ _ _ [] layers Hfold) as (ls & Hls & _).
  exists ls. exact Hls.
Qed.

(** A forward pass of a one-layer stack with a mask returns a tensor of the
    shape of the embedded input. *)
Example Transformer_forward_example :
  exists out g',
    Transformer_forward (mkTransformer ex_embeddings (map wrap [ex_layer]))
                        (VLongTensor ex_ids) (VLongTensor ex_ids)
                        (VBoolTensor ex_mask) ex_rng = Ok (out, g')
    /\ shape out = [1; 2; 1]%nat.
Proof.
  eexists _, _. split.
  - cbv -[Rplus Rmult Rminus Rdiv Rinv Ropp exp sqrt Rmax INR IZR]. reflexivity.
  - reflexivity.
Qed.

(* ===================================================================== *)
(** ** Construction of the classifier                                     *)
(* ===================================================================== *)

Local Open Scope string_scope.

(** [CRATE.__init__] calls the constructor of [Transformer], which takes a
    configuration object and a step size, with five positional arguments. *)
Lemma Transformer_init_five_positional (a b c d e : pyval)
      (kwargs : list (string * pyval)) (w : TransformerInit) :
  Transformer_init [a; b; c; d; e] kwargs w = Raise TypeError.
Proof. reflexivity. Qed.

(** [CRATE.forward] calls the transformer, whose [forward] takes a token
    tensor, a segment tensor and a mask, with one argument. *)
Lemma Transformer_call_one_positional (self : Transformer) (x : pyval) (g : rng) :
  Transformer_call self [x] g = Raise TypeError.
Proof. reflexivity. Qed.

(** When both assertions hold, construction reaches the call of the
    transformer's constructor and raises there. *)
Lemma CRATE_init_TypeError (a : CRATE_args) (w : CRATEInit) :
  fst (pair (patch_size a)) <> O -> snd (pair (patch_size a)) <> O ->
  (fst (pair (image_size a)) mod fst (pair (patch_size a)) = 0)%nat ->
  (snd (pair (image_size a)) mod snd (pair (patch_size a)) = 0)%nat ->
  pool a = "cls" \/ pool a = "mean" ->
  (0 <= emb_dropout a <= 1)%R ->
  CRATE_init a w = Raise TypeError.
Proof.
  unfold CRATE_init.
  destruct (pair (image_size a)) as [ih iw], (pair (patch_size a)) as [ph pw].
  cbn [fst snd]. intros Hph Hpw Hh Hw Hpool Hdrop.
  rewrite Transformer_init_five_positional.
  unfold pymod, floordiv.
  destruct (Nat.eqb_spec ph 0) as [?|_]; [contradiction|].
  destruct (Nat.eqb_spec pw 0) as [?|_]; [contradiction|].
  cbn [Py.bind]. rewrite Hh. cbn [Nat.eqb Py.bind]. rewrite Hw. cbn [Nat.eqb Py.bind].
  replace (String.eqb (pool a) "cls" || String.eqb (pool a) "mean") with true
    by (destruct Hpool as [-> | ->]; reflexivity).
  rewrite (Dropout_init_ok Hdrop). reflexivity.
Qed.

(** The first assertion: the height, then the width. *)
Lemma CRATE_init_indivisible_height (a : CRATE_args) (w : CRATEInit) :
  fst (pair (patch_size a)) <> O ->
  (fst (pair (image_size a)) mod fst (pair (patch_size a)) <> 0)%nat ->
  CRATE_init a w = Raise AssertionError.
Proof.
  unfold CRATE_init.
  destruct (pair (image_size a)) as [ih iw], (pair (patch_size a)) as [ph pw].
  cbn [fst snd]. intros Hph Hh. unfold pymod.
  destruct (Nat.eqb_spec ph 0) as [?|_]; [contradiction|]. cbn [Py.bind].
  destruct (Nat.eqb_spec (ih mod ph) 0) as [?|_]; [contradiction|]. reflexivity.
Qed.

Lemma CRATE_init_indivisible_width (a : CRATE_args) (w : CRATEInit) :
  fst (pair (patch_size a)) <> O -> snd (pair (patch_size a)) <> O ->
  (fst (pair (image_size a)) mod fst (pair (patch_size a)) = 0)%nat ->
  (snd (pair (image_size a)) mod snd (pair (patch_size a)) <> 0)%nat ->
  CRATE_init a w = Raise AssertionError.
Proof.
  unfold CRATE_init.
  destruct (pair (image_size a)) as [ih iw], (pair (patch_size a)) as [ph pw].
  cbn [fst snd]. intros Hph Hpw Hh Hw. unfold pymod.
  destruct (Nat.eqb_spec ph 0) as [?|_]; [contradiction|].
  destruct (Nat.eqb_spec pw 0) as [?|_]; [contradiction|]. cbn [Py.bind].
  rewrite Hh. cbn [Nat.eqb Py.bind].
  destruct (Nat.eqb_spec (iw mod pw) 0) as [?|_]; [contradiction|]. reflexivity.
Qed.

(** The second assertion. *)
Lemma CRATE_init_bad_pool (a : CRATE_args) (w : CRATEInit) :
  fst (pair (patch_size a)) <> O -> snd (pair (patch_size a)) <> O ->
  (fst (pair (image_size a)) mod fst (pair (patch_size a)) = 0)%nat ->
  (snd (pair (image_size a)) mod snd (pair (patch_size a)) = 0)%nat ->
  pool a <> "cls" -> pool a <> "mean" ->
  CRATE_init a w = Raise AssertionError.
Proof.
  unfold CRATE_init.
  destruct (pair (image_size a)) as [ih iw], (pair (patch_size a)) as [ph pw].
  cbn [fst snd]. intros Hph Hpw Hh Hw Hc Hm. unfold pymod, floordiv.
  destruct (Nat.eqb_spec ph 0) as [?|_]; [contradiction|].
  destruct (Nat.eqb_spec pw 0) as [?|_]; [contradiction|]. cbn [Py.bind].
  rewrite Hh. cbn [Nat.eqb Py.bind]. rewrite Hw. cbn [Nat.eqb Py.bind].
  destruct (String.eqb_spec (pool a) "cls") as [?|_]; [contradiction|].
  destruct (String.eqb_spec (pool a) "mean") as [?|_]; [contradiction|].
  reflexivity.
Qed.

(** No arguments at all make the constructor return a model. *)
Lemma CRATE_init_never_succeeds (a : CRATE_args) (w : CRATEInit) :
  succeeds (CRATE_init a w) = false.
Proof.
  unfold CRATE_init.
  destruct (pair (image_size a)) as [ih iw], (pair (patch_size a)) as [ph pw].
  rewrite Transformer_init_five_positional.
  repeat match goal with
         | |- succeeds (Py.bind ?m _) = false =>
             destruct m; cbn [Py.bind succeeds]; try reflexivity
         | |- succeeds (if ?b then _ else _) = false => destruct b; try reflexivity
         end.
Qed.

(** Nor does the forward entry point return on any model value. *)
Lemma CRATE_forward_never_succeeds (self : CRATE) (img : tensor) (g : rng) :
  succeeds (CRATE_forward self img g) = false.
Proof.
  unfold CRATE_forward.
  apply mbind_never_succeeds; intros x1 g1.
  apply mbind_never_succeeds; intros x2 g2.
  apply mbind_never_succeeds; intros x3 g3.
  apply mbind_never_succeeds; intros x4 g4.
  destruct (shape x4) as [|b [|n [|d [|? ?]]]]; try reflexivity.
  apply mbind_never_succeeds; intros cls g5.
  apply mbind_never_succeeds; intros x5 g6.
  apply mbind_never_succeeds; intros pe g7.
  apply mbind_never_succeeds; intros x6 g8.
  apply mbind_never_succeeds; intros x7 g9.
  unfold mbind. rewrite Transformer_call_one_positional. reflexivity.
Qed.

(** C1 fails: [CRATE_tiny()] raises TypeError for every number of classes,
    and so does the call of its forward entry point on every image. *)
Theorem CRATE_tiny_raises (num_classes : nat) (w : CRATEInit) :
  CRATE_tiny num_classes w = Raise TypeError
  /\ forall (img : tensor) (g : rng),
       CRATE_tiny_forward num_classes w img g = Raise TypeError.
Proof.
  assert (H : CRATE_tiny num_classes w = Raise TypeError).
  { unfold CRATE_tiny. apply CRATE_init_TypeError;
      cbn [pair image_size patch_size fst snd pool emb_dropout].
    - discriminate.
    - discriminate.
    - reflexivity.
    - reflexivity.
    - left; reflexivity.
    - lra. }
  split; [exact H|].
  intros img g. unfold CRATE_tiny_forward, mbind, lift. rewrite H. reflexivity.
Qed.

(** C2 fails in its first half: for patch sizes other than zero and an
    embedding dropout within [0, 1], construction raises AssertionError when
    a dimension is not divisible or the pooling mode is not recognised, and
    TypeError in every configuration that passes both assertions. *)
Theorem CRATE_init_outcome (a : CRATE_args) (w : CRATEInit) :
  let ih := fst (pair (image_size a)) in
  let iw := snd (pair (image_size a)) in
  let ph := fst (pair (patch_size a)) in
  let pw := snd (pair (patch_size a)) in
  ph <> O -> pw <> O -> (0 <= emb_dropout a <= 1)%R ->
  CRATE_init a w =
  Raise (if ((ih mod ph =? 0)%nat && (iw mod pw =? 0)%nat
             && (String.eqb (pool a) "cls" || String.eqb (pool a) "mean"))%bool
         then TypeError else AssertionError).
Proof.
  intros ih iw ph pw Hph Hpw Hdrop. subst ih iw ph pw.
  destruct (Nat.eqb_spec (fst (pair (image_size a)) mod fst (pair (patch_size a))) 0)
    as [Hh|Hh]; cbn [andb].
  2: { apply CRATE_init_indivisible_height; assumption. }
  destruct (Nat.eqb_spec (snd (pair (image_size a)) mod snd (pair (patch_size a))) 0)
    as [Hw|Hw]; cbn [andb].
  2: { apply CRATE_init_indivisible_width; assumption. }
  destruct (String.eqb_spec (pool a) "cls") as [Hc|Hc]; cbn [orb].
  { apply CRATE_init_TypeError; auto. }
  destruct (String.eqb_spec (pool a) "mean") as [Hm|Hm].
  { apply CRATE_init_TypeError; auto. }
  apply CRATE_init_bad_pool; assumption.
Qed.

(** The configuration of the tiny preset passes both assertions. *)
Lemma CRATE_init_outcome_witness :
  CRATE_init ex_tiny_args ex_init = Raise TypeError.
Proof.
  apply (@CRATE_init_outcome ex_tiny_args ex_init);
    cbn [ex_tiny_args pair image_size patch_size fst snd emb_dropout].
  - discriminate.
  - discriminate.
  - lra.
Defined.

(* ===================================================================== *)
(** ** The corpus script                                                  *)
(* ===================================================================== *)

Import Corpus CorpusSpec.

Lemma occurs_at_empty (p : nat) : ~ occurs_at p EmptyString.
Proof. unfold occurs_at. destruct p; discriminate. Qed.

Lemma occurs_at_succ (p : nat) (c : ascii) (s : string) :
  occurs_at (S p) (String c s) <-> occurs_at p s.
Proof. unfold occurs_at. reflexivity. Qed.

Lemma occurs_at_zero (s : string) :
  occurs_at O s <-> prefix pattern s = true.
Proof. unfold occurs_at. symmetry. apply prefix_correct. Qed.

(** The scan counts at least one match exactly when there is an occurrence
    at or after the position it starts from, and at least two exactly when
    there are two that do not overlap. *)
Lemma findall_count_spec (s : string) :
  forall skip : nat,
    ((1 <= findall_count skip s)%nat <->
     exists p, (skip <= p)%nat /\ occurs_at p s)
    /\ ((2 <= findall_count skip s)%nat <->
        exists p q, (skip <= p)%nat /\ occurs_at p s /\ occurs_at q s
                    /\ (p + String.length pattern <= q)%nat).
Proof.
  induction s as [|c s IH]; intros skip.
  - cbn [findall_count]. split; split.
    + lia.
    + intros (p & _ & H). exfalso. exact (occurs_at_empty H).
    + lia.
    + intros (p & q & _ & H & _). exfalso. exact (occurs_at_empty H).
  - cbn [findall_count]. destruct skip as [|k].
    + destruct (prefix pattern (String c s)) eqn:Hpre.
      * destruct (IH (String.length pattern - 1)%nat) as [IH1 _]. split; split.
        -- intros _. exists O. split; [lia|]. apply occurs_at_zero. exact Hpre.
        -- lia.
        -- intros H.
           assert (H' : (1 <= findall_count (String.length pattern - 1) s)%nat) by lia.
           apply IH1 in H'. destruct H' as (p & Hp & Hocc).
           exists O, (S p). split; [lia|]. split; [apply occurs_at_zero; exact Hpre|].
           split; [apply occurs_at_succ; exact Hocc|]. cbn in *. lia.
        -- intros (p & q & _ & _ & Hq & Hpq).
           destruct q as [|q]; [cbn in Hpq; lia|]. apply occurs_at_succ in Hq.
           assert (H' : (1 <= findall_count (String.length pattern - 1) s)%nat).
           { apply IH1. exists q. split; [cbn in *; lia | exact Hq]. }
           lia.
      * destruct (IH O) as [IH1 IH2]. split; split.
        -- intros H. apply IH1 in H. destruct H as (p & _ & Hocc).
           exists (S p). split; [lia|]. apply occurs_at_succ. exact Hocc.
        -- intros (p & _ & Hocc). apply IH1. destruct p as [|p].
           ++ apply occurs_at_zero in Hocc. congruence.
           ++ exists p. split; [lia|]. apply occurs_at_succ in Hocc. exact Hocc.
        -- intros H. apply IH2 in H. destruct H as (p & q & _ & Hp & Hq & Hpq).
           exists (S p), (S q). split; [lia|].
           split; [apply occurs_at_succ; exact Hp|].
           split; [apply occurs_at_succ; exact Hq|]. lia.
        -- intros (p & q & _ & Hp & Hq & Hpq). apply IH2. destruct p as [|p].
           ++ apply occurs_at_zero in Hp. congruence.
           ++ destruct q as [|q]; [lia|]. exists p, q.
              apply occurs_at_succ in Hp. apply occurs_at_succ in Hq.
              split; [lia|]. split; [exact Hp|]. split; [exact Hq|]. lia.
    + destruct (IH k) as [IH1 IH2]. split; split.
      * intros H. apply IH1 in H. destruct H as (p & Hk & Hocc).
        exists (S p). split; [lia|]. apply occurs_at_succ. exact Hocc.
      * intros (p & Hk & Hocc). apply IH1. destruct p as [|p]; [lia|].
        exists p. split; [lia|]. apply occurs_at_succ in Hocc. exact Hocc.
      * intros H. apply IH2 in H. destruct H as (p & q & Hk & Hp & Hq & Hpq).
        exists (S p), (S q). split; [lia|].
        split; [apply occurs_at_succ; exact Hp|].
        split; [apply occurs_at_succ; exact Hq|]. lia.
      * intros (p & q & Hk & Hp & Hq & Hpq). apply IH2.
        destruct p as [|p]; [lia|]. destruct q as [|q]; [lia|]. exists p, q.
        apply occurs_at_succ in Hp. apply occurs_at_succ in Hq.
        split; [lia|]. split; [exact Hp|]. split; [exact Hq|]. lia.
Qed.

Lemma findall_two_occurrences (s : string) :
  (1 <? findall_count O s)%nat = true <-> two_occurrences s.
Proof.
  rewrite Nat.ltb_lt. destruct (findall_count_spec s O) as [_ H2].
  unfold two_occurrences. split.
  - intros H. assert (H' : (2 <= findall_count O s)%nat) by lia.
    apply H2 in H'. destruct H' as (p & q & _ & Hp & Hq & Hpq). eauto.
  - intros (p & q & Hp & Hq & Hpq).
    assert (H' : (2 <= findall_count O s)%nat)
      by (apply H2; exists p, q; repeat split; auto; lia).
    lia.
Qed.

Lemma append_assoc (a b c : string) : (a ++ b) ++ c = a ++ (b ++ c).
Proof. induction a as [|x a IH]; cbn; [reflexivity | rewrite IH; reflexivity]. Qed.

Lemma append_empty_r (a : string) : a ++ "" = a.
Proof. induction a as [|x a IH]; cbn; [reflexivity | rewrite IH; reflexivity]. Qed.

Lemma run_loop (g : string -> string) (text : list string) :
  forall f : file,
    fold_left (fun (f : file) (i : string) => write f (g i)) text f
    = f ++ written (map g text).
Proof.
  induction text as [|i text IH]; intros f; cbn [fold_left map written fold_right].
  - symmetry. apply append_empty_r.
  - rewrite IH. unfold write. apply append_assoc.
Qed.

(** Two occurrences that share a space count once, also inside a
    heading. *)
Example findall_count_overlap : findall_count O " = = " = 1%nat.
Proof. reflexivity. Qed.

Example findall_count_heading : findall_count O " = = Title = = " = 2%nat.
Proof. reflexivity. Qed.

(** C7: the file written holds, in the order of the input, a single
    newline for each line with two or more non-overlapping occurrences of
    " = " and the line itself for every other line. *)
Theorem Corpus_run_spec (text : list string) :
  exists out,
    Forall2 spec_line text out /\ Corpus.run text = written out.
Proof.
  exists (map (fun i => if (1 <? findall_count O i)%nat then newline else i) text).
  split.
  - induction text as [|i text IH]; cbn [map]; constructor; [|exact IH].
    unfold spec_line.
    destruct (1 <? findall_count O i)%nat eqn:Hc.
    + split; [reflexivity|]. intros Hn. exfalso. apply Hn.
      apply findall_two_occurrences. exact Hc.
    + split; [|reflexivity]. intros Ht. apply findall_two_occurrences in Ht.
      congruence.
  - unfold Corpus.run. rewrite run_loop. reflexivity.
Qed.

(* ===================================================================== *)
(** ** Further properties of the feed-forward block *)
(* ===================================================================== *)

Local Close Scope string_scope.

Lemma linear_mismatch (x W : tensor) (batch : list nat) (o k k' : nat) :
  shape W = [o; k] -> shape x = (batch ++ [k'])%list -> k' <> k ->
  linear x W = Raise RuntimeError.
Proof.
  intros HW Hx Hk. unfold linear. rewrite HW, Hx, rev_app_distr. cbn [rev app].
  destruct (Nat.eqb_spec k k') as [->|_]; [contradiction | reflexivity].
Qed.

(** X2: an input without dimensions, or whose last dimension is not the
    size of the dictionary, makes the block raise RuntimeError. *)
Theorem FeedForward_shape_mismatch
        (dim hidden_dim : nat) (dropout s : R) (D : list nat -> R) (x : tensor) :
  shape x = [] \/ (exists batch k, shape x = (batch ++ [k])%list /\ k <> dim) ->
  FeedForward_forward (FeedForward_init dim hidden_dim dropout s D) x
  = Raise RuntimeError.
Proof.
  intros [H | (batch & k & H & Hk)]; unfold FeedForward_forward.
  - unfold linear at 1. cbn [FeedForward_init ff_weight shape]. rewrite H. reflexivity.
  - erewrite linear_mismatch; [reflexivity | reflexivity | exact H | exact Hk].
Qed.

Lemma FeedForward_shape_mismatch_witness :
  FeedForward_forward (FeedForward_init 3 3 0 (1 / 10) (fun _ => 2)) ex_x
  = Raise RuntimeError.
Proof.
  apply FeedForward_shape_mismatch. right. exists [2%nat], 1%nat.
  split; [reflexivity | discriminate].
Defined.

Lemma sum_n_delta_r (n j : nat) (f : nat -> R) :
  (j < n)%nat ->
  sum_n n (fun k => f k * (if (k =? j)%nat then 1 else 0)) = f j.
Proof.
  induction n as [|n IH]; intros Hj; [lia|]. cbn [sum_n].
  destruct (Nat.eqb_spec n j) as [->|Hne].
  - rewrite sum_n_zero; [lra|].
    intros i Hi. destruct (Nat.eqb_spec i j); [lia | lra].
  - rewrite IH by lia. lra.
Qed.

Lemma sum_n_delta_l (n j : nat) (f : nat -> R) :
  (j < n)%nat ->
  sum_n n (fun k => f k * (if (j =? k)%nat then 1 else 0)) = f j.
Proof.
  intros Hj. rewrite <- (sum_n_delta_r f Hj). apply sum_n_ext.
  intros i _. rewrite Nat.eqb_sym. reflexivity.
Qed.

(** X4: with the identity matrix as dictionary the two gradient terms
    cancel, and the block is ReLU(x - s lambda) as for the zero dictionary. *)
Theorem FeedForward_identity_dictionary
        (dim hidden_dim : nat) (dropout s : R) (D : list nat -> R)
        (x : tensor) (batch : list nat) :
  shape x = (batch ++ [dim])%list ->
  (forall i j, (i < dim)%nat -> (j < dim)%nat ->
               D [i; j] = if (i =? j)%nat then 1 else 0) ->
  exists out,
    FeedForward_forward (FeedForward_init dim hidden_dim dropout s D) x = Ok out
    /\ shape out = shape x
    /\ forall idx, valid (shape x) idx ->
         data out idx = Rmax 0 (data x idx - s * (1 / 10)).
Proof.
  intros Hx HD.
  destruct (@FeedForward_forward_eq (FeedForward_init dim hidden_dim dropout s D)
              x batch dim eq_refl Hx) as (out & Hrun & Hshape & Hdata).
  exists out. split; [exact Hrun|]. split; [exact Hshape|].
  intros idx Hidx. rewrite (Hdata idx Hidx).
  rewrite Hx in Hidx. apply valid_snoc_inv in Hidx.
  destruct Hidx as (pre & j & -> & _ & Hj).
  unfold spec_feed_forward, rowmat, entries, transposed.
  cbn [ff_weight ff_step_size ff_lambd FeedForward_init data].
  rewrite last_last, removelast_last.
  assert (H2 : sum_n dim (fun k => data x (pre ++ [k])%list * D [k; j])
               = data x (pre ++ [j])%list).
  { rewrite <- (sum_n_delta_r (fun k => data x (pre ++ [k])%list) Hj).
    apply sum_n_ext. intros k Hk. rewrite (HD k j Hk Hj). reflexivity. }
  assert (H1 : sum_n dim
                 (fun k => sum_n dim
                    (fun k0 => data x (removelast (pre ++ [k]) ++ [k0])%list
                               * D [last (pre ++ [k])%list O; k0]) * D [k; j])
               = data x (pre ++ [j])%list).
  { rewrite <- (sum_n_delta_r (fun k => data x (pre ++ [k])%list) Hj).
    apply sum_n_ext. intros k Hk. rewrite (HD k j Hk Hj).
    rewrite last_last, removelast_last. f_equal.
    rewrite <- (sum_n_delta_l (fun k0 => data x (pre ++ [k0])%list) Hk).
    apply sum_n_ext. intros k0 Hk0. rewrite (HD k k0 Hk Hk0). reflexivity. }
  rewrite H1, H2. f_equal. lra.
Qed.

Lemma FeedForward_identity_dictionary_witness :
  exists out,
    FeedForward_forward
      (FeedForward_init 1 1 0 (1 / 10) ex_identity) ex_x = Ok out
    /\ shape out = shape ex_x
    /\ forall idx, valid (shape ex_x) idx ->
         data out idx = Rmax 0 (data ex_x idx - 1 / 10 * (1 / 10)).
Proof.
  apply (@FeedForward_identity_dictionary 1 1 0 (1 / 10) ex_identity ex_x [2%nat]).
  - reflexivity.
  - intros i j _ _. reflexivity.
Defined.

(* ===================================================================== *)
(** ** Further properties of the attention block *)
(* ===================================================================== *)

Lemma Dropout_init_low (p : R) : p < 0 -> Dropout_init p = Raise ValueError.
Proof.
  intros H. unfold Dropout_init. destruct (Rlt_dec p 0); [reflexivity | contradiction].
Qed.

Lemma Dropout_init_high (p : R) : 1 < p -> Dropout_init p = Raise ValueError.
Proof.
  intros H. unfold Dropout_init. destruct (Rlt_dec p 0); [reflexivity|].
  destruct (Rlt_dec 1 p); [reflexivity | contradiction].
Qed.

Lemma Dropout_init_bad (p : R) : p < 0 \/ 1 < p -> Dropout_init p = Raise ValueError.
Proof. intros [H|H]; [apply Dropout_init_low | apply Dropout_init_high]; exact H. Qed.

Lemma Attention_init_ok (dim heads dim_head : nat) (p : R) (w : AttentionInit) :
  dim_head <> O -> 0 <= p <= 1 ->
  exists self,
    Attention_init dim heads dim_head p w = Ok self
    /\ att_heads self = heads
    /\ shape (lin_weight (att_qkv self)) = [(dim_head * heads)%nat; dim]
    /\ lin_bias (att_qkv self) = None
    /\ to_out_wf dim heads dim_head self
    /\ (att_to_out self = None <-> heads = 1%nat /\ dim_head = dim)
    /\ att_dropout self = {| drop_p := p; drop_training := true |}.
Proof.
  unfold Attention_init.
  intros Hd Hp. destruct (Nat.eqb_spec dim_head 0) as [?|_]; [contradiction|].
  cbn [Py.bind]. rewrite (Dropout_init_ok Hp). cbn [Py.bind].
  destruct (Nat.eqb_spec heads 1) as [Hh|Hh];
    [destruct (Nat.eqb_spec dim_head dim) as [Hdd|Hdd]|];
    cbn [negb andb Py.bind]; eexists; (split; [reflexivity|]);
    cbn [att_heads att_qkv att_to_out att_dropout Linear_init lin_weight lin_bias shape];
    unfold to_out_wf; cbn [att_to_out Linear_init lin_weight lin_bias shape];
    repeat split; try reflexivity; try lia; try discriminate; try tauto;
    try (eexists; split; reflexivity).
Qed.

(** X5: the constructor of an attention block raises ZeroDivisionError for
    a zero head width, ValueError for a dropout probability outside [0, 1],
    and otherwise returns a block in training mode whose projections have the
    shapes (dim_head * heads, dim) and (dim, dim_head * heads), the output
    projection being left out exactly when heads = 1 and dim_head = dim. *)
Theorem Attention_init_outcome (dim heads dim_head : nat) (p : R) (w : AttentionInit) :
  (dim_head = O -> Attention_init dim heads dim_head p w = Raise ZeroDivisionError)
  /\ (dim_head <> O -> p < 0 \/ 1 < p ->
      Attention_init dim heads dim_head p w = Raise ValueError)
  /\ (dim_head <> O -> 0 <= p <= 1 ->
      exists self,
        Attention_init dim heads dim_head p w = Ok self
        /\ att_heads self = heads
        /\ shape (lin_weight (att_qkv self)) = [(dim_head * heads)%nat; dim]
        /\ lin_bias (att_qkv self) = None
        /\ to_out_wf dim heads dim_head self
        /\ (att_to_out self = None <-> heads = 1%nat /\ dim_head = dim)
        /\ att_dropout self = {| drop_p := p; drop_training := true |}).
Proof.
  split; [|split].
  - intros ->. reflexivity.
  - intros Hd Hp. unfold Attention_init.
    destruct (Nat.eqb_spec dim_head 0) as [?|_]; [contradiction|].
    cbn [Py.bind]. rewrite (Dropout_init_bad Hp). reflexivity.
  - apply Attention_init_ok.
Qed.

Lemma apply_mask_ok (attn : tensor) (mask : pyval) (b h n : nat) :
  shape attn = [b; h; n; n] -> mask_ok b n mask ->
  exists out, apply_mask attn mask = Ok out /\ shape out = [b; h; n; n].
Proof.
  intros Ha [-> | (m & -> & Hm)].
  - exists attn. split; [reflexivity | exact Ha].
  - destruct (apply_mask_bool attn m Ha Hm) as (out & Hout & Hs & _).
    exists out. auto.
Qed.

(** The first part of an attention call returns the weights, of shape
    (b, h, n, n), and the projected input, of shape (b, h, n, d). *)
Lemma Attention_attn_shape (self : Attention) (x : tensor) (mask : pyval) (g : rng)
      (b n dim h d : nat) :
  Attention_wf dim h d self -> shape x = [b; n; dim] -> mask_ok b n mask ->
  exists attn w g',
    Attention_attn self x mask g = Ok ((attn, w), g')
    /\ shape attn = [b; h; n; n] /\ shape w = [b; h; n; d].
Proof.
  intros Hwf Hx Hm.
  destruct (Attention_w_ok x Hwf Hx) as (w & Hw & Hws).
  destruct (Attention_dots_ok self w Hws) as (dots & Hd & Hds & _).
  pose proof (@softmax_ok dots [b; h; n] n Hds) as Hsm. cbn [app] in Hsm.
  set (sm := mkT [b; h; n; n] _) in Hsm.
  destruct (Dropout_forward_ok (att_dropout self) sm g)
    as (dr & g' & Hdr & Hdrs & _).
  destruct (@apply_mask_ok dr mask b h n Hdrs Hm) as (attn & Ha & Has).
  exists attn, w, g'. split; [|auto].
  unfold Attention_attn, mbind, lift, ret. rewrite Hw, Hd, Hsm, Hdr, Ha.
  reflexivity.
Qed.

Lemma matmul_heads (a w : tensor) (b h n d : nat) :
  shape a = [b; h; n; n] -> shape w = [b; h; n; d] ->
  exists out, matmul a w = Ok out /\ shape out = [b; h; n; d].
Proof.
  intros Ha Hw. unfold matmul. rewrite Ha, Hw. cbn [rev app].
  rewrite Nat.eqb_refl, broadcast_rev_same.
  eexists. split; reflexivity.
Qed.

Lemma rearrange_merge_heads_ok (a : tensor) (b h n d : nat) :
  shape a = [b; h; n; d] ->
  exists out, rearrange_merge_heads a = Ok out /\ shape out = [b; n; (h * d)%nat].
Proof.
  intros Ha. unfold rearrange_merge_heads. rewrite Ha.
  eexists. split; reflexivity.
Qed.

Lemma tadd_bias (y bias : tensor) (batch : list nat) (o : nat) :
  shape y = (batch ++ [o])%list -> shape bias = [o] ->
  exists out, tadd y bias = Ok out /\ shape out = (batch ++ [o])%list.
Proof.
  intros Hy Hb. unfold tadd, map2, broadcast_shapes.
  rewrite Hy, Hb, rev_app_distr. cbn [rev app broadcast_rev].
  rewrite Nat.eqb_refl.
  replace (broadcast_rev (rev batch) []) with (Some (rev batch))
    by (destruct (rev batch); reflexivity).
  cbn [option_map rev]. rewrite rev_involutive.
  eexists. split; reflexivity.
Qed.

Lemma Linear_forward_ok (l : Linear) (x bias : tensor) (batch : list nat) (o k : nat) :
  shape (lin_weight l) = [o; k] -> lin_bias l = Some bias -> shape bias = [o] ->
  shape x = (batch ++ [k])%list ->
  exists out, Linear_forward l x = Ok out /\ shape out = (batch ++ [o])%list.
Proof.
  intros HW Hb Hbs Hx. unfold Linear_forward.
  rewrite (linear_ok x (lin_weight l) batch HW Hx), Hb. cbn [Py.bind].
  apply tadd_bias; [reflexivity | exact Hbs].
Qed.

(** Once the weights are computed, the rest of an attention call returns a
    tensor of the shape of the input. *)
Lemma Attention_forward_tail
      (self : Attention) (x attn w : tensor) (mask : pyval) (g g1 : rng)
      (b n dim h d : nat) :
  to_out_wf dim h d self ->
  Attention_attn self x mask g = Ok ((attn, w), g1) ->
  shape attn = [b; h; n; n] -> shape w = [b; h; n; d] ->
  exists out g',
    Attention_forward self x mask g = Ok (out, g') /\ shape out = [b; n; dim].
Proof.
  intros Hout Hrun Has Hws.
  destruct (@matmul_heads attn w b h n d Has Hws) as (o1 & Ho1 & Ho1s).
  destruct (@rearrange_merge_heads_ok o1 b h n d Ho1s) as (o2 & Ho2 & Ho2s).
  unfold Attention_forward, mbind, lift, ret. rewrite Hrun. cbn [fst snd].
  rewrite Ho1, Ho2.
  unfold to_out_wf in Hout. destruct (att_to_out self) as [[l dr]|].
  - destruct Hout as (HW & bias & Hb & Hbs).
    rewrite Nat.mul_comm in Ho2s.
    destruct (@Linear_forward_ok l o2 bias [b; n] dim (d * h) HW Hb Hbs Ho2s)
      as (o3 & Ho3 & Ho3s).
    rewrite Ho3.
    destruct (Dropout_forward_ok dr o3 g1) as (o4 & g2 & Ho4 & Ho4s & _).
    exists o4, g2. split; [exact Ho4|]. rewrite Ho4s. exact Ho3s.
  - exists o2, g1. split; [reflexivity|]. rewrite Ho2s, Hout. reflexivity.
Qed.

(** X6: on a sequence tensor (b, n, dim), with no mask passed or a boolean
    mask (b, n), [Attention.forward] returns a tensor of shape (b, n, dim),
    with or without output projection. *)
Theorem Attention_forward_shape
        (self : Attention) (x : tensor) (mask : pyval) (g : rng)
        (b n dim h d : nat) :
  Attention_wf dim h d self -> to_out_wf dim h d self ->
  shape x = [b; n; dim] -> mask_ok b n mask ->
  exists out g',
    Attention_forward self x mask g = Ok (out, g') /\ shape out = [b; n; dim].
Proof.
  intros Hwf Hout Hx Hm.
  destruct (@Attention_attn_shape self x mask g b n dim h d Hwf Hx Hm)
    as (attn & w & g1 & Hrun & Has & Hws).
  exact (@Attention_forward_tail self x attn w mask g g1 b n dim h d
           Hout Hrun Has Hws).
Qed.

Lemma Attention_forward_shape_witness :
  exists out g',
    Attention_forward (ex_attention 0 false) ex_seq (VBoolTensor ex_mask) ex_rng
    = Ok (out, g')
    /\ shape out = [1; 2; 1]%nat.
Proof.
  apply (@Attention_forward_shape (ex_attention 0 false) ex_seq
           (VBoolTensor ex_mask) ex_rng 1 2 1 1 1).
  - repeat split. discriminate.
  - reflexivity.
  - reflexivity.
  - right. exists ex_mask. split; reflexivity.
Defined.

(** X8: a boolean mask that marks no position leaves the attention weights
    as they are without a mask, whatever the dropout does. *)
Theorem Attention_empty_mask
        (self : Attention) (x : tensor) (m : btensor) (g : rng)
        (b n dim h d : nat) :
  Attention_wf dim h d self -> shape x = [b; n; dim] -> shape m = [b; n] ->
  (forall ib j, (ib < b)%nat -> (j < n)%nat -> data m [ib; j] = false) ->
  exists a0 a1 w g',
    Attention_attn self x VNone g = Ok ((a0, w), g')
    /\ Attention_attn self x (VBoolTensor m) g = Ok ((a1, w), g')
    /\ shape a1 = shape a0
    /\ forall idx, valid (shape a0) idx -> data a1 idx = data a0 idx.
Proof.
  intros Hwf Hx Hm Hfalse.
  destruct (Attention_w_ok x Hwf Hx) as (w & Hw & Hws).
  destruct (Attention_dots_ok self w Hws) as (dots & Hd & Hds & _).
  pose proof (@softmax_ok dots [b; h; n] n Hds) as Hsm. cbn [app] in Hsm.
  set (sm := mkT [b; h; n; n] _) in Hsm.
  destruct (Dropout_forward_ok (att_dropout self) sm g)
    as (dr & g' & Hdr & Hdrs & _).
  destruct (apply_mask_bool dr m Hdrs Hm) as (a1 & Ha & Has & Hdata).
  exists dr, a1, w, g'. split; [|split; [|split]].
  - unfold Attention_attn, mbind, lift, ret. rewrite Hw, Hd, Hsm, Hdr. reflexivity.
  - unfold Attention_attn, mbind, lift, ret. rewrite Hw, Hd, Hsm, Hdr, Ha.
    reflexivity.
  - rewrite Has, Hdrs. reflexivity.
  - intros idx Hidx. rewrite Hdrs in Hidx.
    inversion Hidx as [|ib d0 r0 s0 Hib H1]; subst.
    inversion H1 as [|ih d1 r1 s1 Hih H2]; subst.
    inversion H2 as [|i d2 r2 s2 Hi H3]; subst.
    inversion H3 as [|j d3 r3 s3 Hj H4]; subst.
    inversion H4; subst.
    rewrite (Hdata ib ih i j Hib Hih Hi Hj), (Hfalse ib j Hib Hj). lra.
Qed.

Lemma Attention_empty_mask_witness :
  exists a0 a1 w g',
    Attention_attn (ex_attention (1 / 2) true) ex_seq VNone ex_rng = Ok ((a0, w), g')
    /\ Attention_attn (ex_attention (1 / 2) true) ex_seq
                      (VBoolTensor ex_no_mask) ex_rng
       = Ok ((a1, w), g')
    /\ shape a1 = shape a0
    /\ forall idx, valid (shape a0) idx -> data a1 idx = data a0 idx.
Proof.
  apply (@Attention_empty_mask (ex_attention (1 / 2) true) ex_seq
           ex_no_mask ex_rng 1 2 1 1 1).
  - repeat split. discriminate.
  - reflexivity.
  - reflexivity.
  - reflexivity.
Defined.

(* ===================================================================== *)
(** ** Further properties of the wrapper *)
(* ===================================================================== *)

Lemma LayerNorm_forward_ok (self : LayerNorm) (x : tensor) (batch : list nat) :
  shape x = (batch ++ [ln_dim self])%list ->
  exists out, LayerNorm_forward self x = Ok out /\ shape out = shape x.
Proof.
  intros Hx. unfold LayerNorm_forward. rewrite Hx, rev_app_distr. cbn [rev app].
  rewrite Nat.eqb_refl. eexists. split; reflexivity.
Qed.

Lemma LayerNorm_forward_mismatch (self : LayerNorm) (x : tensor) :
  shape x = [] \/ (exists batch k, shape x = (batch ++ [k])%list /\ k <> ln_dim self) ->
  LayerNorm_forward self x = Raise RuntimeError.
Proof.
  intros [H | (batch & k & H & Hk)]; unfold LayerNorm_forward; rewrite H.
  - reflexivity.
  - rewrite rev_app_distr. cbn [rev app].
    destruct (Nat.eqb_spec k (ln_dim self)); [contradiction | reflexivity].
Qed.

(** X9: an input without dimensions, or whose last dimension is not the
    width of the normalisation, makes the wrapper raise RuntimeError before
    the wrapped block is called, whatever the block and the mask. *)
Theorem PreNorm_width_mismatch (self : PreNorm) (x : tensor) (mask : pyval) (g : rng) :
  shape x = []
  \/ (exists batch k, shape x = (batch ++ [k])%list /\ k <> ln_dim (pn_norm self)) ->
  PreNorm_forward self x mask g = Raise RuntimeError.
Proof.
  intros H. unfold PreNorm_forward, mbind, lift.
  rewrite (LayerNorm_forward_mismatch (pn_norm self) x H).
  destruct mask; reflexivity.
Qed.

Lemma PreNorm_width_mismatch_witness :
  PreNorm_forward (PreNorm_init 3 (BAttention (ex_attention 0 false)))
                  ex_seq (VBoolTensor ex_mask) ex_rng
  = Raise RuntimeError.
Proof.
  apply PreNorm_width_mismatch. right. exists [1; 2]%nat, 1%nat.
  split; [reflexivity | discriminate].
Defined.

(** X10: the wrapper passes a mask on to whatever block it wraps, and
    [FeedForward.forward] takes none: a wrapped feed-forward block called
    with a mask raises TypeError once the normalisation has succeeded. *)
Theorem PreNorm_FeedForward_with_mask (norm : LayerNorm) (f : FeedForward)
        (x : tensor) (mask : pyval) (g : rng) :
  mask <> VNone ->
  PreNorm_forward (mkPreNorm norm (BFeedForward f)) x mask g
  = match LayerNorm_forward norm x with
    | Ok _ => Raise TypeError
    | Raise e => Raise e
    end.
Proof.
  intros Hmask. unfold PreNorm_forward, mbind, lift. cbn [pn_norm pn_fn].
  destruct mask; try contradiction;
    destruct (LayerNorm_forward norm x); reflexivity.
Qed.

Lemma PreNorm_FeedForward_with_mask_witness :
  PreNorm_forward (mkPreNorm (LayerNorm_init 1)
                     (BFeedForward (FeedForward_init 1 1 0 (1 / 10) (fun _ => 0))))
                  ex_seq (VBoolTensor ex_mask) ex_rng
  = match LayerNorm_forward (LayerNorm_init 1) ex_seq with
    | Ok _ => Raise TypeError
    | Raise e => Raise e
    end.
Proof. apply PreNorm_FeedForward_with_mask. discriminate. Defined.

(* ===================================================================== *)
(** ** Properties of the embeddings *)
(* ===================================================================== *)

Lemma valid_nil_inv (idx : list nat) : valid [] idx -> idx = [].
Proof. intros H. inversion H. reflexivity. Qed.

Lemma all_idx_spec (s : list nat) :
  forall p : list nat -> bool,
    all_idx s p = true <-> (forall idx, valid s idx -> p idx = true).
Proof.
  induction s as [|d s IH]; intros p; cbn [all_idx].
  - split.
    + intros H idx Hidx. rewrite (valid_nil_inv Hidx). exact H.
    + intros H. apply H. constructor.
  - rewrite forallb_forall. split.
    + intros H idx Hidx. inversion Hidx as [|i d' idx' s' Hi Hrest]; subst.
      assert (Hin : In i (seq 0 d)) by (apply in_seq; lia).
      specialize (H i Hin). rewrite IH in H. apply H. exact Hrest.
    + intros H i Hin. apply in_seq in Hin. rewrite IH. intros idx Hidx.
      apply H. constructor; [lia | exact Hidx].
Qed.

Lemma embedding_ok (W : tensor) (ids : ltensor) (num dim : nat) :
  shape W = [num; dim] -> ids_in_range ids num ->
  exists out, embedding W (VLongTensor ids) = Ok out
              /\ shape out = (shape ids ++ [dim])%list.
Proof.
  intros HW Hr. unfold embedding. rewrite HW.
  replace (all_idx (shape ids) _) with true.
  - eexists. split; reflexivity.
  - symmetry. apply all_idx_spec. intros idx Hidx.
    destruct (Hr idx Hidx) as [H0 H1].
    apply andb_true_intro. split; [apply Z.leb_le | apply Z.ltb_lt]; assumption.
Qed.

Lemma embedding_out_of_range (W : tensor) (ids : ltensor) (num dim : nat)
      (idx : list nat) :
  shape W = [num; dim] -> valid (shape ids) idx ->
  (data ids idx < 0 \/ Z.of_nat num <= data ids idx)%Z ->
  embedding W (VLongTensor ids) = Raise IndexError.
Proof.
  intros HW Hidx Hbad. unfold embedding. rewrite HW.
  destruct (all_idx (shape ids) _) eqn:Hall; [|reflexivity].
  exfalso. rewrite all_idx_spec in Hall. specialize (Hall idx Hidx).
  apply andb_prop in Hall. destruct Hall as [H0 H1].
  apply Z.leb_le in H0. apply Z.ltb_lt in H1. lia.
Qed.

(** A lookup in a table of two dimensions returns or raises IndexError. *)
Lemma embedding_cases (W : tensor) (ids : ltensor) (num dim : nat) :
  shape W = [num; dim] ->
  (exists out, embedding W (VLongTensor ids) = Ok out
               /\ shape out = (shape ids ++ [dim])%list)
  \/ embedding W (VLongTensor ids) = Raise IndexError.
Proof.
  intros HW. unfold embedding. rewrite HW.
  destruct (all_idx (shape ids) _); [left | right; reflexivity].
  eexists. split; reflexivity.
Qed.

(** The position ids built by [Embeddings.forward] for an input (B, S). *)
Lemma expand_positions (B S : nat) :
  exists pos : ltensor,
    expand_as (mkT [1%nat; S]
                   (fun idx => match idx with
                               | [_; i] => Z.of_nat i
                               | _ => 0%Z
                               end)) [B; S] = Ok pos
    /\ shape pos = [B; S]
    /\ forall ib i, (ib < B)%nat -> (i < S)%nat -> data pos [ib; i] = Z.of_nat i.
Proof.
  assert (Hb : broadcast_rev [S; 1%nat] [S; B] = Some [S; B]).
  { cbn [broadcast_rev].
    destruct (Nat.eqb_spec 1 B) as [<-|_]; cbn [Nat.eqb];
      rewrite Nat.eqb_refl; reflexivity. }
  unfold expand_as, broadcast_shapes. cbn [shape rev app].
  rewrite Hb. cbn [option_map rev app]. unfold list_eqb.
  destruct (list_eq_dec Nat.eq_dec [B; S] [B; S]) as [_|Hne]; [|contradiction].
  eexists. split; [reflexivity|]. split; [reflexivity|].
  intros ib i Hib Hi. cbn [data]. unfold bidx. cbn [rev app bidx_rev Nat.eqb].
  destruct (Nat.eqb_spec S 1) as [->|_]; [|reflexivity].
  f_equal. lia.
Qed.

Lemma tadd_same (a b : tensor) :
  shape b = shape a -> exists out, tadd a b = Ok out /\ shape out = shape a.
Proof.
  intros H. unfold tadd. rewrite (map2_same Rplus a b H).
  eexists. split; reflexivity.
Qed.

Lemma Embeddings_forward_ok
        (self : Embeddings) (ids segs : ltensor) (g : rng)
        (dim vocab maxlen nseg B S : nat) :
  Embeddings_wf dim vocab maxlen nseg self ->
  shape ids = [B; S] -> shape segs = [B; S] ->
  ids_in_range ids vocab -> ids_in_range segs nseg -> (S <= maxlen)%nat ->
  exists out g',
    Embeddings_forward self (VLongTensor ids) (VLongTensor segs) g = Ok (out, g')
    /\ shape out = [B; S; dim].
Proof.
  intros (Ht & Hp & Hs & Hn) Hids Hsegs Hri Hrs Hlen.
  destruct (expand_positions B S) as (pos & Hpos & Hposs & Hposd).
  destruct (embedding_ok (tok_embed self) Ht Hri) as (te & Hte & Htes).
  assert (Hrp : ids_in_range pos maxlen).
  { intros idx Hidx. rewrite Hposs in Hidx.
    inversion Hidx as [|ib d0 r0 s0 Hib H1]; subst.
    inversion H1 as [|i d1 r1 s1 Hi H2]; subst. inversion H2; subst.
    rewrite (Hposd ib i Hib Hi). lia. }
  destruct (embedding_ok (pos_embed self) Hp Hrp) as (pe & Hpe & Hpes).
  destruct (embedding_ok (seg_embed self) Hs Hrs) as (se & Hse & Hses).
  rewrite Hids in Htes. rewrite Hposs in Hpes. rewrite Hsegs in Hses.
  cbn [app] in Htes, Hpes, Hses.
  destruct (@tadd_same te pe) as (e1 & He1 & He1s); [congruence|].
  destruct (@tadd_same e1 se) as (e2 & He2 & He2s); [congruence|].
  destruct (@LayerNorm_forward_ok (emb_norm self) e2 [B; S]) as (ne & Hne & Hnes).
  { rewrite Hn. cbn [app]. congruence. }
  destruct (Dropout_forward_ok (emb_drop self) ne g) as (out & g' & Hout & Houts & _).
  exists out, g'. split.
  - unfold Embeddings_forward, mbind, lift.
    cbn [size1 shape_of Py.bind]. rewrite Hids. cbn [Py.bind].
    rewrite Hpos, Hte, Hpe, He1, Hse, He2, Hne. exact Hout.
  - congruence.
Qed.

Lemma ex_embeddings_wf : Embeddings_wf 1 3 2 2 ex_embeddings.
Proof. repeat split. Qed.

Lemma ex_ids_in_range (num : nat) : (2 <= num)%nat -> ids_in_range ex_ids num.
Proof. intros H idx _. cbn [ex_ids data]. lia. Qed.

Lemma embedding_eq (W : tensor) (ids : ltensor) (num dim : nat) :
  shape W = [num; dim] -> ids_in_range ids num ->
  embedding W (VLongTensor ids)
  = Ok (mkT (shape ids ++ [dim])%list
            (fun idx => data W [Z.to_nat (data ids (removelast idx)); last idx O])).
Proof.
  intros HW Hr. unfold embedding. rewrite HW.
  replace (all_idx (shape ids) _) with true; [reflexivity|].
  symmetry. apply all_idx_spec. intros idx Hidx.
  destruct (Hr idx Hidx) as [H0 H1].
  apply andb_true_intro. split; [apply Z.leb_le | apply Z.ltb_lt]; assumption.
Qed.

(** X11: on token and segment ids of shape (B, S) within their tables,
    with S at most the number of positions, [Embeddings.forward] returns the
    dropout of the normalisation of a tensor e of shape (B, S, dim) with
    e[b, s, :] = tok_embed[x[b, s]] + pos_embed[s] + seg_embed[seg[b, s]]:
    position s reads row s of the position table in every sequence of the
    batch. *)
Theorem Embeddings_forward_spec
        (self : Embeddings) (ids segs : ltensor) (g : rng)
        (dim vocab maxlen nseg B S : nat) :
  Embeddings_wf dim vocab maxlen nseg self ->
  shape ids = [B; S] -> shape segs = [B; S] ->
  ids_in_range ids vocab -> ids_in_range segs nseg -> (S <= maxlen)%nat ->
  exists e ne out g',
    Embeddings_forward self (VLongTensor ids) (VLongTensor segs) g = Ok (out, g')
    /\ LayerNorm_forward (emb_norm self) e = Ok ne
    /\ Dropout_forward (emb_drop self) ne g = Ok (out, g')
    /\ shape e = [B; S; dim] /\ shape out = [B; S; dim]
    /\ forall ib i j, (ib < B)%nat -> (i < S)%nat -> (j < dim)%nat ->
         data e [ib; i; j]
         = data (tok_embed self) [Z.to_nat (data ids [ib; i]); j]
           + data (pos_embed self) [i; j]
           + data (seg_embed self) [Z.to_nat (data segs [ib; i]); j].
Proof.
  intros (Ht & Hp & Hs & Hn) Hids Hsegs Hri Hrs Hlen.
  destruct (expand_positions B S) as (pos & Hpos & Hposs & Hposd).
  assert (Hrp : ids_in_range pos maxlen).
  { intros idx Hidx. rewrite Hposs in Hidx.
    inversion Hidx as [|ib d0 r0 s0 Hib H1]; subst.
    inversion H1 as [|i d1 r1 s1 Hi H2]; subst. inversion H2; subst.
    rewrite (Hposd ib i Hib Hi). lia. }
  pose proof (embedding_eq (tok_embed self) Ht Hri) as Hte.
  pose proof (embedding_eq (pos_embed self) Hp Hrp) as Hpe.
  pose proof (embedding_eq (seg_embed self) Hs Hrs) as Hse.
  rewrite Hids in Hte. rewrite Hposs in Hpe. rewrite Hsegs in Hse.
  cbn [app] in Hte, Hpe, Hse.
  set (te := mkT [B; S; dim] _) in Hte.
  set (pe := mkT [B; S; dim] _) in Hpe.
  set (se := mkT [B; S; dim] _) in Hse.
  pose proof (@map2_same Rplus te pe eq_refl) as He1.
  set (e1 := mkT (shape te) _) in He1.
  pose proof (@map2_same Rplus e1 se eq_refl) as He2.
  set (e2 := mkT (shape e1) _) in He2.
  destruct (@LayerNorm_forward_ok (emb_norm self) e2 [B; S]) as (ne & Hne & Hnes).
  { rewrite Hn. reflexivity. }
  destruct (Dropout_forward_ok (emb_drop self) ne g) as (out & g' & Hout & Houts & _).
  exists e2, ne, out, g'. split; [|split; [exact Hne|split; [exact Hout|]]].
  - unfold Embeddings_forward, mbind, lift.
    cbn [size1 shape_of Py.bind]. rewrite Hids. cbn [Py.bind].
    rewrite Hpos, Hte, Hpe. unfold tadd. rewrite He1, Hse, He2, Hne. exact Hout.
  - split; [reflexivity|]. split; [rewrite Houts, Hnes; reflexivity|].
    intros ib i j Hib Hi Hj.
    assert (Hv : valid [B; S; dim] [ib; i; j]) by (repeat constructor; assumption).
    subst e2 e1. cbn [data shape]. subst te pe se. cbn [shape].
    rewrite !(bidx_valid Hv). cbn [data removelast last].
    rewrite (Hposd ib i Hib Hi), Nat2Z.id. reflexivity.
Qed.

Lemma Embeddings_forward_spec_witness :
  exists e ne out g',
    Embeddings_forward ex_embeddings (VLongTensor ex_ids) (VLongTensor ex_ids) ex_rng
    = Ok (out, g')
    /\ LayerNorm_forward (emb_norm ex_embeddings) e = Ok ne
    /\ Dropout_forward (emb_drop ex_embeddings) ne ex_rng = Ok (out, g')
    /\ shape e = [1; 2; 1]%nat /\ shape out = [1; 2; 1]%nat
    /\ forall ib i j, (ib < 1)%nat -> (i < 2)%nat -> (j < 1)%nat ->
         data e [ib; i; j]
         = data (tok_embed ex_embeddings) [Z.to_nat (data ex_ids [ib; i]); j]
           + data (pos_embed ex_embeddings) [i; j]
           + data (seg_embed ex_embeddings) [Z.to_nat (data ex_ids [ib; i]); j].
Proof.
  apply (@Embeddings_forward_spec ex_embeddings ex_ids ex_ids ex_rng 1 3 2 2 1 2).
  - exact ex_embeddings_wf.
  - reflexivity.
  - reflexivity.
  - apply ex_ids_in_range. lia.
  - apply ex_ids_in_range. lia.
  - lia.
Defined.

(** X12: a batch that is not empty and whose sequences are longer than the
    table of positions makes [Embeddings.forward] raise IndexError. *)
Theorem Embeddings_forward_too_long
        (self : Embeddings) (ids : ltensor) (seg : pyval) (g : rng)
        (dim vocab maxlen nseg B S : nat) :
  Embeddings_wf dim vocab maxlen nseg self ->
  shape ids = [B; S] -> (0 < B)%nat -> (maxlen < S)%nat ->
  Embeddings_forward self (VLongTensor ids) seg g = Raise IndexError.
Proof.
  intros (Ht & Hp & Hs & Hn) Hids HB Hlen.
  destruct (expand_positions B S) as (pos & Hpos & Hposs & Hposd).
  assert (Hpe : embedding (pos_embed self) (VLongTensor pos) = Raise IndexError).
  { apply (@embedding_out_of_range (pos_embed self) pos maxlen dim [O; maxlen] Hp).
    - rewrite Hposs. repeat constructor; assumption.
    - right. rewrite (Hposd O maxlen HB Hlen). lia. }
  unfold Embeddings_forward, mbind, lift.
  cbn [size1 shape_of Py.bind]. rewrite Hids. cbn [Py.bind]. rewrite Hpos.
  destruct (embedding_cases (tok_embed self) ids Ht) as [(te & Hte & _) | Hte];
    rewrite Hte; [|reflexivity].
  rewrite Hpe. reflexivity.
Qed.

Lemma Embeddings_forward_too_long_witness :
  Embeddings_forward ex_embeddings (VLongTensor ex_long_ids) (VLongTensor ex_long_ids)
                     ex_rng
  = Raise IndexError.
Proof.
  apply (@Embeddings_forward_too_long ex_embeddings ex_long_ids
           (VLongTensor ex_long_ids) ex_rng 1 3 2 2 1 3).
  - exact ex_embeddings_wf.
  - reflexivity.
  - lia.
  - lia.
Defined.

(* ===================================================================== *)
(** ** Further properties of the transformer stack *)
(* ===================================================================== *)

Lemma mbind_never_succeeds_l {A B : Type} (m : M A) (k : A -> M B) (g : rng) :
  succeeds (m g) = false -> succeeds (mbind m k g) = false.
Proof.
  unfold mbind. destruct (m g) as [[a g']|e]; [discriminate | reflexivity].
Qed.

Lemma Transformer_layer_ok (dim heads dim_head : nat) (dropout ista : R)
      (w : TransformerInit) (k : nat) :
  heads <> O -> dim_head <> O -> 0 <= dropout <= 1 ->
  exists l, Transformer_layer dim heads dim_head dropout ista w k = Ok (wrap l)
            /\ layer_wf dim heads dim_head l
            /\ ff_step_size (lp_ff l) = ista.
Proof.
  intros Hh Hd Hp. unfold Transformer_layer.
  destruct (@Attention_init_ok dim heads dim_head dropout (init_attn w k) Hd Hp)
    as (a & Ha & Hah & Hqkv & Hqb & Hto & _ & _).
  rewrite Ha. cbn [Py.bind].
  exists (mkLayerParts (LayerNorm_init dim) a (LayerNorm_init dim)
            (FeedForward_init dim dim dropout ista (init_ff w k))).
  split; [reflexivity|]. split; [|reflexivity].
  repeat split; auto.
Qed.

Lemma Transformer_build_ok (dim heads dim_head : nat) (dropout ista : R)
      (w : TransformerInit) (ks : list nat) :
  heads <> O -> dim_head <> O -> 0 <= dropout <= 1 ->
  forall acc : list layer_parts,
    exists new,
      fold_left
        (fun (acc : result (list (PreNorm * PreNorm))) (k : nat) =>
           ls <- acc ;;
           l <- Transformer_layer dim heads dim_head dropout ista w k ;;
           Ok (ls ++ [l])%list)
        ks (Ok (map wrap acc)) = Ok (map wrap (acc ++ new)%list)
      /\ List.length new = List.length ks
      /\ Forall (fun l => layer_wf dim heads dim_head l
                          /\ ff_step_size (lp_ff l) = ista) new.
Proof.
  intros Hh Hd Hp. induction ks as [|k ks IH]; intros acc; cbn [fold_left].
  - exists []. rewrite app_nil_r. repeat split. constructor.
  - destruct (@Transformer_layer_ok dim heads dim_head dropout ista w k Hh Hd Hp)
      as (l & Hl & Hwf). cbn [Py.bind]. rewrite Hl. cbn [Py.bind].
    change (map wrap acc ++ [wrap l])%list with (map wrap acc ++ map wrap [l])%list.
    rewrite <- map_app.
    destruct (IH (acc ++ [l])%list) as (new & Hrun & Hlen & Hall).
    exists (l :: new). rewrite Hrun, <- app_assoc. cbn [app List.length].
    split; [reflexivity|]. split; [lia|]. constructor; assumption.
Qed.

Lemma fold_left_Raise {A B : Type} (f : result A -> B -> result A) (e : exn) (ks : list B) :
  (forall k, f (Raise e) k = Raise e) -> fold_left f ks (Raise e) = Raise e.
Proof.
  intros H. induction ks as [|k ks IH]; cbn [fold_left]; [reflexivity|].
  rewrite H. exact IH.
Qed.

(** X13: for a configuration with at least one head, no more heads than
    dimensions and dropout rates within [0, 1], [Transformer(cfg)] returns a
    model with exactly n_layers layers, each a pre-normalised attention block
    with n_heads heads of width dim // n_heads and a pre-normalised
    feed-forward block with a (dim, dim) dictionary and step size 0.1. *)
Theorem Transformer_init_ok (cfg : Config) (w : TransformerInit) :
  n_heads cfg <> O -> (n_heads cfg <= cfg_dim cfg)%nat ->
  0 <= p_drop_hidden cfg <= 1 -> 0 <= p_drop_attn cfg <= 1 ->
  exists self ls,
    Transformer_init [VCfg cfg] [] w = Ok self
    /\ tr_layers self = map wrap ls
    /\ List.length ls = n_layers cfg
    /\ Forall (fun l => layer_wf (cfg_dim cfg) (n_heads cfg)
                                 (cfg_dim cfg / n_heads cfg) l
                        /\ ff_step_size (lp_ff l) = 1 / 10) ls
    /\ Embeddings_wf (cfg_dim cfg) (vocab_size cfg) (max_len cfg) (n_segments cfg)
                     (tr_embed self).
Proof.
  intros Hh Hle Hph Hpa.
  assert (Hd : (cfg_dim cfg / n_heads cfg)%nat <> O).
  { intros H0. apply Nat.div_small_iff in H0; lia. }
  destruct (@Transformer_build_ok (cfg_dim cfg) (n_heads cfg)
              (cfg_dim cfg / n_heads cfg) (p_drop_attn cfg) (1 / 10) w
              (seq 0 (n_layers cfg)) Hh Hd Hpa [])
    as (ls & Hrun & Hlen & Hall).
  cbn [map app] in Hrun. rewrite length_seq in Hlen.
  unfold Transformer_init. cbn [bind_args Transformer_init_sig params n_defaults
    List.length Nat.ltb Nat.leb existsb firstn zip app Nat.sub forallb lookup
    String.eqb Ascii.eqb Bool.eqb andb Py.bind].
  unfold floordiv. destruct (Nat.eqb_spec (n_heads cfg) 0) as [?|_]; [contradiction|].
  cbn [Py.bind]. unfold Embeddings_init. rewrite (Dropout_init_ok Hph).
  cbn [Py.bind]. rewrite Hrun. cbn [Py.bind].
  eexists _, ls. split; [reflexivity|]. cbn [tr_layers tr_embed].
  repeat split; auto.
Qed.

Lemma Transformer_init_ok_witness :
  exists self ls,
    Transformer_init [VCfg ex_cfg] [] (init_transformer ex_init) = Ok self
    /\ tr_layers self = map wrap ls
    /\ List.length ls = n_layers ex_cfg
    /\ Forall (fun l => layer_wf (cfg_dim ex_cfg) (n_heads ex_cfg)
                                 (cfg_dim ex_cfg / n_heads ex_cfg) l
                        /\ ff_step_size (lp_ff l) = 1 / 10) ls
    /\ Embeddings_wf (cfg_dim ex_cfg) (vocab_size ex_cfg) (max_len ex_cfg)
                     (n_segments ex_cfg) (tr_embed self).
Proof.
  apply (@Transformer_init_ok ex_cfg (init_transformer ex_init));
    cbn [ex_cfg n_heads cfg_dim p_drop_hidden p_drop_attn].
  - discriminate.
  - lia.
  - lra.
  - lra.
Defined.

(** X14: [Transformer(cfg)] raises ZeroDivisionError for a configuration
    without heads, and, when it has layers and a valid embedding dropout, for
    one with more heads than dimensions (the head width dim // n_heads is
    then zero). *)
Theorem Transformer_init_ZeroDivisionError (cfg : Config) (w : TransformerInit) :
  n_heads cfg = O
  \/ ((cfg_dim cfg < n_heads cfg)%nat /\ n_layers cfg <> O
      /\ 0 <= p_drop_hidden cfg <= 1) ->
  Transformer_init [VCfg cfg] [] w = Raise ZeroDivisionError.
Proof.
  intros H. unfold Transformer_init. cbn [bind_args Transformer_init_sig params
    n_defaults List.length Nat.ltb Nat.leb existsb firstn zip app Nat.sub forallb
    lookup String.eqb Ascii.eqb Bool.eqb andb Py.bind].
  unfold floordiv. destruct H as [H0 | (Hlt & Hl & Hp)].
  - rewrite H0. reflexivity.
  - destruct (Nat.eqb_spec (n_heads cfg) 0) as [?|_]; [lia|].
    cbn [Py.bind]. unfold Embeddings_init. rewrite (Dropout_init_ok Hp).
    cbn [Py.bind]. rewrite (Nat.div_small _ _ Hlt).
    destruct (n_layers cfg) as [|k]; [contradiction|].
    cbn [seq fold_left Py.bind]. unfold Transformer_layer at 2.
    unfold Attention_init at 1. cbn [Nat.eqb Py.bind].
    rewrite fold_left_Raise; reflexivity.
Qed.

Lemma Transformer_init_ZeroDivisionError_witness :
  Transformer_init [VCfg ex_cfg_heads] [] (init_transformer ex_init)
  = Raise ZeroDivisionError.
Proof.
  apply Transformer_init_ZeroDivisionError. right.
  cbn [ex_cfg_heads cfg_dim n_heads n_layers p_drop_hidden].
  split; [lia|]. split; [discriminate | lra].
Defined.

Lemma PreNorm_Attention_ok
      (norm : LayerNorm) (a : Attention) (x : tensor) (m : btensor) (g : rng)
      (b n dim h d : nat) :
  ln_dim norm = dim -> Attention_wf dim h d a -> to_out_wf dim h d a ->
  shape x = [b; n; dim] -> shape m = [b; n] ->
  exists out g',
    PreNorm_forward (mkPreNorm norm (BAttention a)) x (VBoolTensor m) g = Ok (out, g')
    /\ shape out = [b; n; dim].
Proof.
  intros Hn Hwf Hout Hx Hm.
  destruct (@LayerNorm_forward_ok norm x [b; n]) as (nx & Hnx & Hnxs).
  { rewrite Hn. exact Hx. }
  rewrite Hx in Hnxs.
  destruct (@Attention_attn_shape a nx (VBoolTensor m) g b n dim h d Hwf Hnxs)
    as (attn & w & g1 & Hattn & Has & Hws).
  { right. exists m. auto. }
  destruct (@Attention_forward_tail a nx attn w (VBoolTensor m) g g1 b n dim h d
              Hout Hattn Has Hws) as (out & g' & Hrun & Hs).
  exists out, g'. split; [|exact Hs].
  rewrite PreNorm_Attention_with_mask by discriminate.
  unfold mbind, lift. rewrite Hnx. exact Hrun.
Qed.

Lemma spec_layer_update_ok (m : btensor) (l : layer_parts) (x : tensor) (g : rng)
      (b n dim h d : nat) :
  layer_wf dim h d l -> shape x = [b; n; dim] -> shape m = [b; n] ->
  exists out g',
    spec_layer_update (VBoolTensor m) l x g = Ok (out, g')
    /\ shape out = [b; n; dim].
Proof.
  intros (Hn1 & Hwf & Hout & Hn2 & Hff) Hx Hm.
  destruct (@PreNorm_Attention_ok (lp_norm1 l) (lp_attn l) x m g b n dim h d
              Hn1 Hwf Hout Hx Hm) as (a & g' & Ha & Has).
  destruct (@tadd_same a x) as (gx & Hgx & Hgxs); [congruence|].
  destruct (@LayerNorm_forward_ok (lp_norm2 l) gx [b; n]) as (ngx & Hngx & Hngxs).
  { rewrite Hn2. cbn [app]. congruence. }
  destruct (@FeedForward_forward_eq (lp_ff l) ngx [b; n] dim Hff) as (out & Hrun & Hs & _).
  { cbn [app]. congruence. }
  exists out, g'. split.
  - unfold spec_layer_update, mbind, lift. rewrite Ha, Hgx, Hngx, Hrun. reflexivity.
  - congruence.
Qed.

Lemma spec_layers_ok (m : btensor) (ls : list layer_parts) (b n dim h d : nat) :
  Forall (layer_wf dim h d) ls -> shape m = [b; n] ->
  forall (x : tensor) (g : rng),
    shape x = [b; n; dim] ->
    exists out g',
      spec_layers (VBoolTensor m) ls x g = Ok (out, g') /\ shape out = [b; n; dim].
Proof.
  intros Hall Hm. induction Hall as [|l ls Hl _ IH]; intros x g Hx; cbn [spec_layers].
  - exists x, g. split; [reflexivity | exact Hx].
  - destruct (@spec_layer_update_ok m l x g b n dim h d Hl Hx Hm)
      as (x' & g1 & Hrun & Hs).
    destruct (IH x' g1 Hs) as (out & g2 & Hrest & Hos).
    exists out, g2. split; [|exact Hos].
    unfold mbind. rewrite Hrun. exact Hrest.
Qed.

(** X15: for a stack whose layers have consistent shapes, token and segment
    ids (B, S) within their tables, S at most the number of positions and a
    boolean mask (B, S), [Transformer.forward] returns a tensor of shape
    (B, S, dim). *)
Theorem Transformer_forward_shape
        (embed : Embeddings) (ls : list layer_parts) (ids segs : ltensor)
        (m : btensor) (g : rng) (dim h d vocab maxlen nseg B S : nat) :
  Embeddings_wf dim vocab maxlen nseg embed ->
  Forall (layer_wf dim h d) ls ->
  shape ids = [B; S] -> shape segs = [B; S] -> shape m = [B; S] ->
  ids_in_range ids vocab -> ids_in_range segs nseg -> (S <= maxlen)%nat ->
  exists out g',
    Transformer_forward (mkTransformer embed (map wrap ls))
                        (VLongTensor ids) (VLongTensor segs) (VBoolTensor m) g
    = Ok (out, g')
    /\ shape out = [B; S; dim].
Proof.
  intros He Hall Hids Hsegs Hm Hri Hrs Hlen.
  destruct (@Embeddings_forward_ok embed ids segs g dim vocab maxlen nseg B S
              He Hids Hsegs Hri Hrs Hlen) as (x0 & g0 & Hx0 & Hx0s).
  destruct (@spec_layers_ok m ls B S dim h d Hall Hm x0 g0 Hx0s)
    as (out & g' & Hrun & Hs).
  exists out, g'. split; [|exact Hs].
  unfold Transformer_forward. cbn [tr_embed tr_layers].
  unfold mbind at 1. rewrite Hx0.
  rewrite (Transformer_loop_spec (VBoolTensor m) ls (ret x0) g0).
  unfold mbind, ret. exact Hrun.
Qed.

Lemma ex_layer_wf : layer_wf 1 1 1 ex_layer.
Proof. repeat split. discriminate. Qed.

Lemma Transformer_forward_shape_witness :
  exists out g',
    Transformer_forward (mkTransformer ex_embeddings (map wrap [ex_layer]))
                        (VLongTensor ex_ids) (VLongTensor ex_ids)
                        (VBoolTensor ex_mask) ex_rng
    = Ok (out, g')
    /\ shape out = [1; 2; 1]%nat.
Proof.
  apply (@Transformer_forward_shape ex_embeddings [ex_layer] ex_ids ex_ids ex_mask
           ex_rng 1 1 1 3 2 2 1 2).
  - exact ex_embeddings_wf.
  - constructor; [exact ex_layer_wf | constructor].
  - reflexivity.
  - reflexivity.
  - reflexivity.
  - apply ex_ids_in_range. lia.
  - apply ex_ids_in_range. lia.
  - lia.
Defined.

(** X16: a stack with at least one layer never returns when no mask is
    passed: the attention block of its first layer is called without its
    required mask argument. *)
Theorem Transformer_forward_without_mask
        (embed : Embeddings) (l : layer_parts) (ls : list layer_parts)
        (x seg : pyval) (g : rng) :
  succeeds (Transformer_forward (mkTransformer embed (map wrap (l :: ls)))
                                x seg VNone g) = false.
Proof.
  unfold Transformer_forward. cbn [tr_embed tr_layers].
  apply mbind_never_succeeds. intros x0 g0.
  rewrite (Transformer_loop_spec VNone (l :: ls) (ret x0) g0).
  unfold mbind at 1, ret at 1. cbn [spec_layers].
  apply mbind_never_succeeds_l.
  unfold spec_layer_update. apply mbind_never_succeeds_l.
  unfold PreNorm_forward, mbind, lift. cbn [pn_norm pn_fn].
  destruct (LayerNorm_forward (lp_norm1 l) x0); reflexivity.
Qed.

(* ===================================================================== *)
(** ** Further properties of the classifier *)
(* ===================================================================== *)

Local Open Scope string_scope.

Lemma CRATE_init_zero_patch_height (a : CRATE_args) (w : CRATEInit) :
  fst (pair (patch_size a)) = O -> CRATE_init a w = Raise ZeroDivisionError.
Proof.
  unfold CRATE_init.
  destruct (pair (image_size a)) as [ih iw], (pair (patch_size a)) as [ph pw].
  cbn [fst]. intros ->. reflexivity.
Qed.

Lemma CRATE_init_zero_patch_width (a : CRATE_args) (w : CRATEInit) :
  fst (pair (patch_size a)) <> O ->
  (fst (pair (image_size a)) mod fst (pair (patch_size a)) = 0)%nat ->
  snd (pair (patch_size a)) = O -> CRATE_init a w = Raise ZeroDivisionError.
Proof.
  unfold CRATE_init.
  destruct (pair (image_size a)) as [ih iw], (pair (patch_size a)) as [ph pw].
  cbn [fst snd]. intros Hph Hh ->. unfold pymod.
  destruct (Nat.eqb_spec ph 0) as [?|_]; [contradiction|]. cbn [Py.bind].
  rewrite Hh. reflexivity.
Qed.

Lemma CRATE_init_bad_emb_dropout (a : CRATE_args) (w : CRATEInit) :
  fst (pair (patch_size a)) <> O -> snd (pair (patch_size a)) <> O ->
  (fst (pair (image_size a)) mod fst (pair (patch_size a)) = 0)%nat ->
  (snd (pair (image_size a)) mod snd (pair (patch_size a)) = 0)%nat ->
  pool a = "cls" \/ pool a = "mean" ->
  (emb_dropout a < 0 \/ 1 < emb_dropout a)%R ->
  CRATE_init a w = Raise ValueError.
Proof.
  unfold CRATE_init.
  destruct (pair (image_size a)) as [ih iw], (pair (patch_size a)) as [ph pw].
  cbn [fst snd]. intros Hph Hpw Hh Hw Hpool Hdrop.
  unfold pymod, floordiv.
  destruct (Nat.eqb_spec ph 0) as [?|_]; [contradiction|].
  destruct (Nat.eqb_spec pw 0) as [?|_]; [contradiction|].
  cbn [Py.bind]. rewrite Hh. cbn [Nat.eqb Py.bind]. rewrite Hw. cbn [Nat.eqb Py.bind].
  replace (String.eqb (pool a) "cls" || String.eqb (pool a) "mean") with true
    by (destruct Hpool as [-> | ->]; reflexivity).
  rewrite (Dropout_init_bad Hdrop). reflexivity.
Qed.

(** X17: [CRATE.__init__] returns for no arguments at all, and the exception
    it raises is decided in the order of its statements: ZeroDivisionError
    for a zero patch height, AssertionError for an indivisible height,
    ZeroDivisionError for a zero patch width, AssertionError for an
    indivisible width or an unrecognised pooling mode, ValueError for an
    embedding dropout outside [0, 1], and TypeError at the call of the
    transformer's constructor otherwise. *)
Theorem CRATE_init_exception (a : CRATE_args) (w : CRATEInit) :
  let ih := fst (pair (image_size a)) in
  let iw := snd (pair (image_size a)) in
  let ph := fst (pair (patch_size a)) in
  let pw := snd (pair (patch_size a)) in
  CRATE_init a w =
  Raise (if (ph =? 0)%nat then ZeroDivisionError
         else if negb (ih mod ph =? 0)%nat then AssertionError
         else if (pw =? 0)%nat then ZeroDivisionError
         else if negb (iw mod pw =? 0)%nat then AssertionError
         else if negb (String.eqb (pool a) "cls" || String.eqb (pool a) "mean")
         then AssertionError
         else if Rlt_dec (emb_dropout a) 0 then ValueError
         else if Rlt_dec 1 (emb_dropout a) then ValueError
         else TypeError).
Proof.
  intros ih iw ph pw. subst ih iw ph pw.
  destruct (Nat.eqb_spec (fst (pair (patch_size a))) 0) as [Hph|Hph].
  { apply CRATE_init_zero_patch_height. exact Hph. }
  destruct (Nat.eqb_spec (fst (pair (image_size a)) mod fst (pair (patch_size a))) 0)
    as [Hh|Hh]; cbn [negb].
  2: { apply CRATE_init_indivisible_height; assumption. }
  destruct (Nat.eqb_spec (snd (pair (patch_size a))) 0) as [Hpw|Hpw].
  { apply CRATE_init_zero_patch_width; assumption. }
  destruct (Nat.eqb_spec (snd (pair (image_size a)) mod snd (pair (patch_size a))) 0)
    as [Hw|Hw]; cbn [negb].
  2: { apply CRATE_init_indivisible_width; assumption. }
  destruct (String.eqb_spec (pool a) "cls") as [Hc|Hc]; cbn [orb negb].
  - destruct (Rlt_dec (emb_dropout a) 0) as [H0|H0].
    { apply CRATE_init_bad_emb_dropout; auto. }
    destruct (Rlt_dec 1 (emb_dropout a)) as [H1|H1].
    { apply CRATE_init_bad_emb_dropout; auto. }
    apply CRATE_init_TypeError; auto. lra.
  - destruct (String.eqb_spec (pool a) "mean") as [Hm|Hm]; cbn [negb].
    + destruct (Rlt_dec (emb_dropout a) 0) as [H0|H0].
      { apply CRATE_init_bad_emb_dropout; auto. }
      destruct (Rlt_dec 1 (emb_dropout a)) as [H1|H1].
      { apply CRATE_init_bad_emb_dropout; auto. }
      apply CRATE_init_TypeError; auto. lra.
    + apply CRATE_init_bad_pool; assumption.
Qed.

(** X18: the presets [CRATE_small], [CRATE_base] and [CRATE_large] raise
    TypeError for every number of classes, like [CRATE_tiny]. *)
Theorem CRATE_presets_raise (num_classes : nat) (w : CRATEInit) :
  CRATE_small num_classes w = Raise TypeError
  /\ CRATE_base num_classes w = Raise TypeError
  /\ CRATE_large num_classes w = Raise TypeError.
Proof.
  repeat split;
    apply CRATE_init_TypeError;
    cbn [pair image_size patch_size fst snd pool emb_dropout];
    first [discriminate | reflexivity | left; reflexivity | lra].
Qed.

Local Close Scope string_scope.

Lemma rearrange_patches_ok (p1 p2 : nat) (img : tensor) (b c hh ww : nat) :
  shape img = [b; c; hh; ww] -> p1 <> O -> p2 <> O ->
  (hh mod p1 = 0)%nat -> (ww mod p2 = 0)%nat ->
  exists out,
    rearrange_patches p1 p2 img = Ok out
    /\ shape out = [b; (hh / p1 * (ww / p2))%nat; (p1 * p2 * c)%nat].
Proof.
  intros Hs Hp1 Hp2 Hh Hw. unfold rearrange_patches. rewrite Hs.
  destruct (Nat.eqb_spec p1 0) as [?|_]; [contradiction|].
  destruct (Nat.eqb_spec p2 0) as [?|_]; [contradiction|].
  rewrite Hh, Hw. cbn [Nat.eqb negb].
  eexists. split; reflexivity.
Qed.

Lemma rearrange_patches_indivisible (p1 p2 : nat) (img : tensor) (b c hh ww : nat) :
  shape img = [b; c; hh; ww] -> p1 <> O -> p2 <> O ->
  (hh mod p1 <> 0)%nat \/ (ww mod p2 <> 0)%nat ->
  rearrange_patches p1 p2 img = Raise RuntimeError.
Proof.
  intros Hs Hp1 Hp2 H. unfold rearrange_patches. rewrite Hs.
  destruct (Nat.eqb_spec p1 0) as [?|_]; [contradiction|].
  destruct (Nat.eqb_spec p2 0) as [?|_]; [contradiction|].
  destruct (Nat.eqb_spec (hh mod p1) 0) as [Hh|Hh];
    destruct (Nat.eqb_spec (ww mod p2) 0) as [Hw|Hw];
    cbn [negb]; try reflexivity.
  destruct H; contradiction.
Qed.

Lemma repeat_cls_ok (b d : nat) (cls : tensor) :
  shape cls = [1%nat; 1%nat; d] ->
  exists out, repeat_cls b cls = Ok out /\ shape out = [b; 1%nat; d].
Proof.
  intros H. unfold repeat_cls. rewrite H. eexists. split; reflexivity.
Qed.

Lemma cat1_ok (x y : tensor) (b n1 n2 d : nat) :
  shape x = [b; n1; d] -> shape y = [b; n2; d] ->
  exists out, cat1 x y = Ok out /\ shape out = [b; (n1 + n2)%nat; d].
Proof.
  intros Hx Hy. unfold cat1. rewrite Hx, Hy, !Nat.eqb_refl. cbn [andb].
  eexists. split; reflexivity.
Qed.

Lemma iadd_positions (x pe : tensor) (b n d : nat) :
  shape x = [b; n; d] -> shape pe = [1%nat; n; d] ->
  exists out, iadd x pe = Ok out /\ shape out = [b; n; d].
Proof.
  intros Hx Hp. unfold iadd, tadd, map2, broadcast_shapes. rewrite Hx, Hp.
  assert (Hb : broadcast_rev [d; n; b] [d; n; 1%nat] = Some [d; n; b]).
  { cbn [broadcast_rev].
    destruct (Nat.eqb_spec b 1) as [->|_]; cbn [Nat.eqb];
      rewrite !Nat.eqb_refl; reflexivity. }
  cbn [rev app]. rewrite Hb. cbn [option_map rev app Py.bind shape].
  unfold list_eqb.
  destruct (list_eq_dec Nat.eq_dec [b; n; d] [b; n; d]) as [_|Hne]; [|contradiction].
  eexists. split; reflexivity.
Qed.

(** X19: on a model whose embedding stage has the shapes the constructor
    gives it, and an image (B, C, H, W) with H and W divisible by the patch
    sizes and no more patches than the model has positions, the forward
    entry point gets through the whole embedding stage and raises TypeError
    at the call of the transformer. *)
Theorem CRATE_forward_TypeError
        (self : CRATE) (img : tensor) (g : rng) (c p1 p2 dim P B H W : nat) :
  CRATE_wf c p1 p2 dim P self ->
  shape img = [B; c; H; W] ->
  (H mod p1 = 0)%nat -> (W mod p2 = 0)%nat -> (H / p1 * (W / p2) <= P)%nat ->
  CRATE_forward self img g = Raise TypeError.
Proof.
  intros (Hph & Hpw & Hp1 & Hp2 & Hn1 & HW & (bias & Hb & Hbs) & Hn2 & Hpos & Hcls)
         Himg Hh Hw HP.
  set (n := (H / p1 * (W / p2))%nat) in *.
  destruct (@rearrange_patches_ok p1 p2 img B c H W Himg Hp1 Hp2 Hh Hw)
    as (x1 & Hx1 & Hx1s).
  fold n in Hx1s.
  assert (Hdim : (p1 * p2 * c = c * p1 * p2)%nat) by lia.
  rewrite Hdim in Hx1s.
  destruct (@LayerNorm_forward_ok (c_patch_norm self) x1 [B; n]) as (x2 & Hx2 & Hx2s).
  { rewrite Hn1. exact Hx1s. }
  rewrite Hx1s in Hx2s.
  destruct (@Linear_forward_ok (c_patch_linear self) x2 bias [B; n] dim
              (c * p1 * p2) HW Hb Hbs Hx2s) as (x3 & Hx3 & Hx3s).
  cbn [app] in Hx3s.
  destruct (@LayerNorm_forward_ok (c_embed_norm self) x3 [B; n]) as (x4 & Hx4 & Hx4s).
  { rewrite Hn2. exact Hx3s. }
  rewrite Hx3s in Hx4s.
  destruct (@repeat_cls_ok B dim (c_cls_token self) Hcls) as (cls & Hc & Hcs).
  destruct (@cat1_ok cls x4 B 1 n dim Hcs Hx4s) as (x5 & Hx5 & Hx5s).
  assert (Hpe : exists pe, slice1 (n + 1) (c_pos_embedding self) = Ok pe
                           /\ shape pe = [1%nat; (1 + n)%nat; dim]).
  { unfold slice1. rewrite Hpos. eexists. split; [reflexivity|].
    cbn [shape]. f_equal. f_equal. lia. }
  destruct Hpe as (pe & Hpe & Hpes).
  destruct (@iadd_positions x5 pe B (1 + n) dim Hx5s Hpes) as (x6 & Hx6 & Hx6s).
  destruct (Dropout_forward_ok (c_dropout self) x6 g) as (x7 & g' & Hx7 & _ & _).
  unfold CRATE_forward, mbind, lift. rewrite Hph, Hpw, Hx1, Hx2, Hx3, Hx4, Hx4s.
  rewrite Hc, Hx5, Hpe, Hx6, Hx7.
  rewrite Transformer_call_one_positional. reflexivity.
Qed.

Lemma CRATE_forward_TypeError_witness :
  CRATE_forward (ex_crate 1) ex_img ex_rng = Raise TypeError.
Proof.
  apply (@CRATE_forward_TypeError (ex_crate 1) ex_img ex_rng 1 1 1 1 1 1 1 1).
  - repeat split; try discriminate. eexists. split; reflexivity.
  - reflexivity.
  - reflexivity.
  - reflexivity.
  - cbn. lia.
Defined.

(** X20: for a model whose patch height and width are not zero, an image
    (B, C, H, W) whose height or width is not divisible by the patch size
    makes the forward entry point raise RuntimeError (einops' EinopsError)
    in the patch rearrangement. *)
Theorem CRATE_forward_indivisible
        (self : CRATE) (img : tensor) (g : rng) (B C H W : nat) :
  c_patch_height self <> O -> c_patch_width self <> O ->
  shape img = [B; C; H; W] ->
  (H mod c_patch_height self <> 0)%nat \/ (W mod c_patch_width self <> 0)%nat ->
  CRATE_forward self img g = Raise RuntimeError.
Proof.
  intros Hp1 Hp2 Himg Hbad. unfold CRATE_forward, mbind, lift.
  rewrite (@rearrange_patches_indivisible _ _ img B C H W Himg Hp1 Hp2 Hbad).
  reflexivity.
Qed.

Lemma CRATE_forward_indivisible_witness :
  CRATE_forward (ex_crate 2) ex_img ex_rng = Raise RuntimeError.
Proof.
  apply (@CRATE_forward_indivisible (ex_crate 2) ex_img ex_rng 1 1 1 1).
  - discriminate.
  - discriminate.
  - reflexivity.
  - left. cbn. discriminate.
Defined.

(* ===================================================================== *)
(** ** Further properties of the corpus script *)
(* ===================================================================== *)

Local Open Scope string_scope.

Lemma written_app (a b : list string) :
  written (a ++ b)%list = written a ++ written b.
Proof.
  induction a as [|x a IH]; cbn [written fold_right List.app]; [reflexivity|].
  fold (written (a ++ b)%list). fold (written a). rewrite IH.
  symmetry. apply append_assoc.
Qed.

(** X21: the script works line by line: the file written for two texts one
    after the other is the file written for the first followed by the file
    written for the second. *)
Theorem Corpus_run_app (t1 t2 : list string) :
  Corpus.run (t1 ++ t2)%list = Corpus.run t1 ++ Corpus.run t2.
Proof.
  unfold Corpus.run. rewrite !run_loop. cbn [open append].
  rewrite map_app. apply written_app.
Qed.

Lemma substring_skip (a s : string) (n : nat) :
  substring (String.length a) n (a ++ s) = substring 0 n s.
Proof. induction a as [|c a IH]; cbn; [reflexivity | exact IH]. Qed.

Lemma substring_prefix (p s : string) :
  substring 0 (String.length p) (p ++ s) = p.
Proof. induction p as [|c p IH]; cbn; [destruct s; reflexivity | rewrite IH; reflexivity]. Qed.

Lemma occurs_at_app (a rest : string) :
  occurs_at (String.length a) (a ++ pattern ++ rest).
Proof.
  unfold occurs_at. rewrite substring_skip. apply substring_prefix.
Qed.

Lemma length_append (a b : string) :
  String.length (a ++ b) = (String.length a + String.length b)%nat.
Proof. induction a as [|c a IH]; cbn; [reflexivity | rewrite IH; reflexivity]. Qed.

(** X22: a line in which the separator occurs, then any text, then the
    separator again (a heading " = Title = ") is written as a single
    newline. *)
Theorem Corpus_heading_dropped (a b c : string) :
  Corpus.run [a ++ " = " ++ b ++ " = " ++ c] = newline.
Proof.
  unfold Corpus.run. cbn [fold_left].
  replace (1 <? findall_count 0 (a ++ " = " ++ b ++ " = " ++ c))%nat with true.
  - reflexivity.
  - symmetry. apply findall_two_occurrences.
    exists (String.length a), (String.length (a ++ " = " ++ b)).
    split; [apply (occurs_at_app a (b ++ " = " ++ c))|].
    split.
    + replace (a ++ " = " ++ b ++ " = " ++ c)
        with ((a ++ " = " ++ b) ++ pattern ++ c)
        by (rewrite !append_assoc; reflexivity).
      apply occurs_at_app.
    + rewrite !length_append. cbn. lia.
Qed.

Lemma prefix_pattern_length (s : string) :
  prefix pattern s = true -> (String.length pattern <= String.length s)%nat.
Proof.
  unfold pattern.
  destruct s as [|c0 [|c1 [|c2 s]]]; cbn [prefix String.length]; intros H;
    try lia; exfalso;
    repeat match type of H with
           | context [ascii_dec ?x ?y] => destruct (ascii_dec x y)
           end; discriminate.
Qed.

(** Matches do not overlap: each takes three characters of the line. *)
Lemma findall_count_bound (s : string) :
  forall skip : nat,
    (String.length pattern * findall_count skip s <= String.length s - skip)%nat.
Proof.
  induction s as [|c s IH]; intros skip; cbn [findall_count].
  - cbn. lia.
  - destruct skip as [|k].
    + destruct (prefix pattern (String c s)) eqn:Hpre.
      * specialize (IH (String.length pattern - 1)%nat).
        apply prefix_pattern_length in Hpre. cbn in *. lia.
      * specialize (IH O). cbn in *. lia.
    + specialize (IH k). cbn in *. lia.
Qed.

(** X23: a line of fewer than six characters is written as it is. *)
Theorem Corpus_short_line_kept (i : string) :
  (String.length i < 6)%nat -> Corpus.run [i] = i.
Proof.
  intros Hlen. unfold Corpus.run. cbn [fold_left].
  pose proof (findall_count_bound i O) as Hb. cbn in Hb.
  replace (1 <? findall_count 0 i)%nat with false
    by (symmetry; apply Nat.ltb_ge; lia).
  reflexivity.
Qed.

Lemma Corpus_short_line_kept_witness : Corpus.run [" = = "] = " = = ".
Proof. apply Corpus_short_line_kept. cbn. lia. Defined.

Lemma newline_not_two_occurrences : ~ two_occurrences newline.
Proof.
  intros H. apply findall_two_occurrences in H. vm_compute in H. discriminate.
Qed.

(** The pieces written for a text: what the loop body writes for each line. *)
Lemma written_pieces (text : list string) :
  let out := map (fun i => if (1 <? findall_count O i)%nat then newline else i) text in
  Forall2 spec_line text out
  /\ Forall (fun o => ~ two_occurrences o) out
  /\ Corpus.run text = written out.
Proof.
  cbv zeta. split; [|split].
  - induction text as [|i text IH]; cbn [map]; constructor; [|exact IH].
    unfold spec_line.
    destruct (1 <? findall_count O i)%nat eqn:Hc.
    + split; [reflexivity|]. intros Hn. exfalso. apply Hn.
      apply findall_two_occurrences. exact Hc.
    + split; [|reflexivity]. intros Ht. apply findall_two_occurrences in Ht.
      congruence.
  - induction text as [|i text IH]; cbn [map]; constructor; [|exact IH].
    destruct (1 <? findall_count O i)%nat eqn:Hc.
    + exact newline_not_two_occurrences.
    + intros Ht. apply findall_two_occurrences in Ht. congruence.
  - unfold Corpus.run. rewrite run_loop. reflexivity.
Qed.

Lemma run_fixed (out : list string) :
  Forall (fun o => ~ two_occurrences o) out -> Corpus.run out = written out.
Proof.
  intros H. unfold Corpus.run. rewrite run_loop. cbn [open append]. f_equal.
  induction H as [|o out Ho _ IH]; cbn [map]; [reflexivity|].
  rewrite IH. f_equal.
  destruct (1 <? findall_count O o)%nat eqn:Hc; [|reflexivity].
  exfalso. apply Ho. apply findall_two_occurrences. exact Hc.
Qed.

(** X24: filtering is idempotent.  The pieces the script writes for a text
    (a newline for a line with two occurrences of the separator, the line
    itself otherwise) contain no line with two occurrences, and the script
    run on these pieces as its lines writes them unchanged. *)
Theorem Corpus_run_idempotent (text : list string) :
  exists out,
    Forall2 spec_line text out
    /\ Corpus.run text = written out
    /\ Forall (fun o => ~ two_occurrences o) out
    /\ Corpus.run out = written out.
Proof.
  destruct (written_pieces text) as (Hspec & Hfix & Hrun).
  eexists. split; [exact Hspec|]. split; [exact Hrun|]. split; [exact Hfix|].
  apply run_fixed. exact Hfix.
Qed.
